(** * The glTF resource loaders of Source/Scene: a shallow embedding

    The loaders (GltfBufferViewLoader, GltfImageLoader, GltfJsonLoader,
    GltfDracoLoader) and the accessor part of GltfLoader are JavaScript
    objects mutated by promise callbacks.  Each loader is a record, each
    method and each promise callback is a computation in a small monad that
    threads the loader object, may throw, and records in order the
    calls made to the collaborators (the resource cache, the loader's own
    deferred) together with the writes to [_state]. *)

From Stdlib Require Import Strings.Byte Strings.String.
From stdpp Require Import base list gmap.

#[local] Open Scope string_scope.
#[local] Open Scope nat_scope.
#[local] Open Scope list_scope.
#[local] Open Scope stdpp_scope.

(** ** Values shared by all loaders *)

(** Modelled from the spec: Scene/ResourceLoaderState.js is not among the
    sources; section 3 gives the states
    UNLOADED, LOADING, PROCESSING, READY, FAILED, DESTROYED. *)
Inductive ResourceLoaderState : Type :=
  | UNLOADED | LOADING | PROCESSING | READY | FAILED | DESTROYED.

Definition state_eqb (a b : ResourceLoaderState) : bool :=
  match a, b with
  | UNLOADED, UNLOADED | LOADING, LOADING | PROCESSING, PROCESSING
  | READY, READY | FAILED, FAILED | DESTROYED, DESTROYED => true
  | _, _ => false
  end.

(** JavaScript error values.  [Annotated] is what [ResourceLoader.getError]
    builds; [External] stands for a failure reported by a collaborator
    (fetch, decoder, child loader). *)
Inductive JsError : Type :=
  | RuntimeError (message : string)
  | RangeError (message : string)
  | TypeError (message : string)
  | DeveloperError (message : string)
  | External (message : string)
  | Annotated (message : string) (cause : JsError).

(** Modelled from the spec: Scene/ResourceLoader.js is not among the sources;
    section 7: the error is "annotated with a human-readable context message
    [...] without discarding the underlying cause".  The loaders call it as
    [ResourceLoader.getError(error, errorMessage)]. *)
Definition getError (error : JsError) (errorMessage : string) : JsError :=
  Annotated errorMessage error.

(** The outermost context message of an error, and the error it wraps. *)
Definition context_message (e : JsError) : option string :=
  match e with Annotated m _ => Some m | _ => None end.

Definition underlying_cause (e : JsError) : option JsError :=
  match e with Annotated _ c => Some c | _ => None end.

(** A [Resource] is only ever derived and passed on.  Core/Resource.js, a
    collaborator, resolves the url of a derived resource against its base;
    the url it was derived with stands for it. *)
Inductive Resource : Type :=
  | ResourceUrl (url : string)
  | getDerivedResource (base : Resource) (url : string).

Definition Resource_url (r : Resource) : string :=
  match r with
  | ResourceUrl url => url
  | getDerivedResource _ url => url
  end.

(** *** Typed arrays over shared array buffers *)

(** An [ArrayBuffer] is a block of memory with an identity; a [Uint8Array] is
    a window into one.  Two typed arrays over the same [ArrayBuffer] alias. *)
Definition ArrayBuffer : Type := nat.

Record Uint8Array : Type := mkUint8Array {
  buffer : ArrayBuffer;
  byteOffset : nat;
  byteLength : nat
}.

(** The contents of every array buffer. *)
Definition Memory : Type := gmap ArrayBuffer (list byte).

Definition buffer_bytes (mem : Memory) (b : ArrayBuffer) : list byte :=
  default [] (mem !! b).

(** The elements seen through a typed array. *)
Definition elements (mem : Memory) (a : Uint8Array) : list byte :=
  take (byteLength a) (drop (byteOffset a) (buffer_bytes mem (buffer a))).

(** A typed array lies inside its buffer; the constructor below only builds
    such arrays. *)
Definition valid_view (mem : Memory) (a : Uint8Array) : Prop :=
  byteOffset a + byteLength a <= length (buffer_bytes mem (buffer a)).

(** *** Completions, traces and the loader monad *)

Inductive Completion (A : Type) : Type :=
  | Normal (a : A)
  | Throw (e : JsError).
Arguments Normal {A} a.
Arguments Throw {A} e.

(** [new Uint8Array(buffer, byteOffset, length)]: a RangeError when the
    window does not fit the buffer. *)
Definition new_Uint8Array (mem : Memory) (b : ArrayBuffer) (off len : nat)
  : Completion Uint8Array :=
  if off + len <=? length (buffer_bytes mem b)
  then Normal (mkUint8Array b off len)
  else Throw (RangeError "Invalid typed array length").

(** *** The glTF JSON, as far as the loaders read it *)

Module Gltf.

Record Buffer : Type := mkBuffer {
  uri : option string;
  source : option Uint8Array          (* buffer.extras._pipeline.source *)
}.

Record BufferView : Type := mkBufferView {
  bufferView_buffer : nat;
  bufferView_byteOffset : nat;
  bufferView_byteLength : nat;
  byteStride : option nat
}.

Record Accessor : Type := mkAccessor {
  bufferView : option nat;
  accessor_byteOffset : option nat;
  componentType : N;
  normalized : option bool;
  count : nat;
  type : string
}.

(** The KHR_draco_mesh_compression extension object of a primitive. *)
Record Draco : Type := mkDraco {
  draco_bufferView : nat;
  draco_attributes : list (string * nat)
}.

Record t : Type := mk {
  asset_version : string;
  buffers : list Buffer;
  bufferViews : option (list BufferView);
  accessors : option (list Accessor)
}.

Definition set_buffers (v : list Buffer) (g : t) : t :=
  mk (asset_version g) v (bufferViews g) (accessors g).

Definition set_uri (v : option string) (b : Buffer) : Buffer :=
  mkBuffer v (source b).

Definition set_source (v : option Uint8Array) (b : Buffer) : Buffer :=
  mkBuffer (uri b) v.

End Gltf.

(** A loader obtained from the resource cache is known by its handle. *)
Definition Handle : Type := nat.

(** The requests the loaders make to the resource cache. *)
Inductive CacheRequest : Type :=
  | loadExternalBuffer (resource : Resource) (keepResident : bool)
  | loadEmbeddedBuffer (parentResource : Resource) (bufferId : nat)
      (typedArray : option Uint8Array) (keepResident : bool)
  | loadBufferView (bufferViewId : nat) (keepResident : bool)
  | loadVertexBuffer (bufferViewId : option nat) (draco : option Gltf.Draco)
      (dracoAttributeSemantic : string) (keepResident asynchronous : bool)
  | loadIndexBuffer (accessorId : nat) (draco : option Gltf.Draco)
      (keepResident asynchronous : bool).

(** Scene/ResourceCache.js is a collaborator: what it answers to a request is
    a parameter of every loader (the [resourceCache] option). *)
Definition ResourceCache : Type := CacheRequest -> Handle.

(** What a run of loader code does to the outside, in order. *)
Inductive Event : Type :=
  | CacheLoad (request : CacheRequest) (loader : Handle)
  | CacheUnload (loader : Handle)
  | SetState (s : ResourceLoaderState)
  | PromiseResolve
  | PromiseReject (e : JsError).

Definition Trace : Type := list Event.

Record Outcome (S A : Type) : Type := mkOutcome {
  result : Completion A;
  final : S;
  trace : Trace
}.
Arguments mkOutcome {S A} _ _ _.
Arguments result {S A} _.
Arguments final {S A} _.
Arguments trace {S A} _.

(** Loader code: reads and writes the loader object [S], may throw, and
    leaves a trace. *)
Definition Eff (S A : Type) : Type := S -> Outcome S A.

Definition ret {S A} (a : A) : Eff S A :=
  fun s => mkOutcome (Normal a) s [].

Definition bind {S A B} (m : Eff S A) (f : A -> Eff S B) : Eff S B :=
  fun s =>
    match m s with
    | mkOutcome (Normal a) s' t =>
        match f a s' with
        | mkOutcome r s'' t' => mkOutcome r s'' (t ++ t')
        end
    | mkOutcome (Throw e) s' t => mkOutcome (Throw e) s' t
    end.

Notation "'do' x <- m ; k" := (bind m (fun x => k))
  (at level 10, x name, m at level 100, k at level 200).
Notation "'run' m ; k" := (bind m (fun _ => k))
  (at level 10, m at level 100, k at level 200).

Definition get {S} : Eff S S := fun s => mkOutcome (Normal s) s [].
Definition modify {S} (f : S -> S) : Eff S unit :=
  fun s => mkOutcome (Normal tt) (f s) [].
Definition emit {S} (e : Event) : Eff S unit :=
  fun s => mkOutcome (Normal tt) s [e].
Definition throw {S A} (e : JsError) : Eff S A :=
  fun s => mkOutcome (Throw e) s [].
Definition lift {S A} (c : Completion A) : Eff S A :=
  fun s => mkOutcome c s [].

(** [p.then(onFulfilled).otherwise(onRejected)] when [p] is fulfilled: an
    exception thrown by [onFulfilled] rejects the derived promise, which runs
    [onRejected]. *)
Definition otherwise {S} (m : Eff S unit) (h : JsError -> Eff S unit)
  : Eff S unit :=
  fun s =>
    match m s with
    | mkOutcome (Normal a) s' t => mkOutcome (Normal a) s' t
    | mkOutcome (Throw e) s' t =>
        match h e s' with
        | mkOutcome r s'' t' => mkOutcome r s'' (t ++ t')
        end
    end.

(** Runs one after the other, on the object left by the first. *)
Definition andThen {S A B} (o : Outcome S A) (m : Eff S B) : Outcome S B :=
  match m (final o) with
  | mkOutcome r s t => mkOutcome r s (trace o ++ t)
  end.

(** Forgets what a callback answers. *)
Definition void {S A : Type} (m : Eff S A) : Eff S unit :=
  do _x <- m; ret tt.

(** Modelled from the spec: ThirdParty/when.js is not among the sources;
    section 3: "a single-resolution promise/future that settles exactly
    once".  The state of the deferred made by [when.defer()]. *)
Inductive Deferred : Type :=
  | Pending
  | Resolved
  | Rejected (e : JsError).

Definition settle (d new : Deferred) : Deferred :=
  match d with Pending => new | _ => d end.

(** Modelled from the spec: Core/destroyObject.js is not among the sources.
    The documentation of [destroy] and [isDestroyed] in every loader states
    what it does to the object: "Once an object is destroyed, it should not
    be used; calling any function other than isDestroyed will result in a
    DeveloperError exception", and isDestroyed "returns true if this object
    was destroyed; otherwise, false".  A method of a loader object is
    either the one inherited from the prototype or one of the two functions
    destroyObject installs on the instance. *)
Inductive FunctionProperty : Type :=
  | Inherited
  | throwOnDestroyed
  | returnTrue.

Record Methods : Type := mkMethods {
  m_load : FunctionProperty;
  m_update : FunctionProperty;
  m_isDestroyed : FunctionProperty;
  m_destroy : FunctionProperty
}.

Definition prototype_methods : Methods :=
  mkMethods Inherited Inherited Inherited Inherited.

Definition destroyObject (_ : Methods) : Methods :=
  mkMethods throwOnDestroyed throwOnDestroyed returnTrue throwOnDestroyed.

Definition destroyed_message : string :=
  "This object was destroyed, i.e., destroy() was called.".

(** A method call on an instance: the instance's own property wins over the
    prototype's. *)
Definition invoke {S} (own : FunctionProperty) (inherited : Eff S unit)
  : Eff S unit :=
  match own with
  | Inherited => inherited
  | throwOnDestroyed => throw (DeveloperError destroyed_message)
  | returnTrue => ret tt
  end.

Definition invoke_isDestroyed (own : FunctionProperty) (inherited : bool)
  : Completion bool :=
  match own with
  | Inherited => Normal inherited
  | throwOnDestroyed => Throw (DeveloperError destroyed_message)
  | returnTrue => Normal true
  end.

Definition cache_load {S} (cache : ResourceCache) (request : CacheRequest)
  : Eff S Handle :=
  run emit (CacheLoad request (cache request));
  ret (cache request).

(** The loaders released by a run, in order. *)
Fixpoint unloads (tr : Trace) : list Handle :=
  match tr with
  | [] => []
  | CacheUnload h :: tr' => h :: unloads tr'
  | _ :: tr' => unloads tr'
  end.



(** ** Scene/GltfBufferViewLoader.js *)

Module GltfBufferViewLoader.

Record t : Type := mk {
  _resourceCache : ResourceCache;
  _gltfResource : Resource;
  _baseResource : Resource;
  _buffer_uri : option string;       (* this._buffer.uri *)
  _bufferId : nat;
  _byteOffset : nat;
  _byteLength : nat;
  _bufferLoader : option Handle;
  _typedArray : option Uint8Array;
  _state : ResourceLoaderState;
  _promise : Deferred;
  methods : Methods
}.

(** The constructor, from the fields it reads out of [options]. *)
Definition new (resourceCache : ResourceCache)
  (gltfResource baseResource : Resource) (buffer_uri : option string)
  (bufferId bufferView_byteOffset bufferView_byteLength : nat) : t :=
  mk resourceCache gltfResource baseResource buffer_uri bufferId
     bufferView_byteOffset bufferView_byteLength
     None None UNLOADED Pending prototype_methods.

Definition set_bufferLoader (v : option Handle) (l : t) : t :=
  mk (_resourceCache l) (_gltfResource l) (_baseResource l) (_buffer_uri l)
     (_bufferId l) (_byteOffset l) (_byteLength l)
     v (_typedArray l) (_state l) (_promise l) (methods l).

Definition set_typedArray (v : option Uint8Array) (l : t) : t :=
  mk (_resourceCache l) (_gltfResource l) (_baseResource l) (_buffer_uri l)
     (_bufferId l) (_byteOffset l) (_byteLength l)
     (_bufferLoader l) v (_state l) (_promise l) (methods l).

Definition set_state (v : ResourceLoaderState) (l : t) : t :=
  mk (_resourceCache l) (_gltfResource l) (_baseResource l) (_buffer_uri l)
     (_bufferId l) (_byteOffset l) (_byteLength l)
     (_bufferLoader l) (_typedArray l) v (_promise l) (methods l).

Definition set_promise (v : Deferred) (l : t) : t :=
  mk (_resourceCache l) (_gltfResource l) (_baseResource l) (_buffer_uri l)
     (_bufferId l) (_byteOffset l) (_byteLength l)
     (_bufferLoader l) (_typedArray l) (_state l) v (methods l).

Definition set_methods (v : Methods) (l : t) : t :=
  mk (_resourceCache l) (_gltfResource l) (_baseResource l) (_buffer_uri l)
     (_bufferId l) (_byteOffset l) (_byteLength l)
     (_bufferLoader l) (_typedArray l) (_state l) (_promise l) v.

Definition write_state (s : ResourceLoaderState) : Eff t unit :=
  run modify (set_state s);
  emit (SetState s).

Definition promise_resolve : Eff t unit :=
  run modify (fun l => set_promise (settle (_promise l) Resolved) l);
  emit PromiseResolve.

Definition promise_reject (e : JsError) : Eff t unit :=
  run modify (fun l => set_promise (settle (_promise l) (Rejected e)) l);
  emit (PromiseReject e).

Definition getBufferLoader : Eff t Handle :=
  do l <- get;
  match _buffer_uri l with
  | Some uri =>
      cache_load (_resourceCache l)
        (loadExternalBuffer (getDerivedResource (_baseResource l) uri) false)
  | None =>
      cache_load (_resourceCache l)
        (loadEmbeddedBuffer (_gltfResource l) (_bufferId l) None false)
  end.

Definition unload : Eff t unit :=
  do l <- get;
  run (match _bufferLoader l with
       | Some bufferLoader => emit (CacheUnload bufferLoader)
       | None => ret tt
       end);
  run modify (set_bufferLoader None);
  modify (set_typedArray None).

(** [load], up to the point where it waits for [bufferLoader.promise]. *)
Definition load : Eff t unit :=
  do bufferLoader <- getBufferLoader;
  run write_state LOADING;
  modify (set_bufferLoader (Some bufferLoader)).

(** The callback given to [then]; [bufferTypedArray] is
    [bufferLoader.typedArray] when it runs. *)
Definition load_then (mem : Memory) (bufferTypedArray : Uint8Array)
  : Eff t unit :=
  do l <- get;
  if state_eqb (_state l) DESTROYED then unload
  else
    do bufferViewTypedArray <-
      lift (new_Uint8Array mem (buffer bufferTypedArray)
              (byteOffset bufferTypedArray + _byteOffset l) (_byteLength l));
    run modify (set_typedArray (Some bufferViewTypedArray));
    run write_state READY;
    promise_resolve.

(** The callback given to [otherwise]. *)
Definition load_otherwise (error : JsError) : Eff t unit :=
  run unload;
  run write_state FAILED;
  promise_reject (getError error "Failed to load buffer view").

(** What runs when the buffer loader's promise is fulfilled, and when it is
    rejected. *)
Definition bufferLoader_fulfilled (mem : Memory) (ta : Uint8Array)
  : Eff t unit :=
  otherwise (load_then mem ta) load_otherwise.

Definition bufferLoader_rejected (error : JsError) : Eff t unit :=
  load_otherwise error.

Definition isDestroyed (_ : t) : bool := false.

Definition destroy : Eff t unit :=
  run unload;
  run write_state DESTROYED;
  modify (fun l => set_methods (destroyObject (methods l)) l).

(** The calls [loader.isDestroyed()] and [loader.destroy()]. *)
Definition call_isDestroyed (l : t) : Completion bool :=
  invoke_isDestroyed (m_isDestroyed (methods l)) (isDestroyed l).

Definition call_destroy : Eff t unit :=
  do l <- get; invoke (m_destroy (methods l)) destroy.

(** The success callbacks a pending promise may still run. *)
Inductive Continuation : Type :=
  | then_bufferLoader (mem : Memory) (bufferTypedArray : Uint8Array).

Definition resume (k : Continuation) : Eff t unit :=
  match k with
  | then_bufferLoader mem bufferTypedArray => load_then mem bufferTypedArray
  end.

End GltfBufferViewLoader.

(** ** Scene/GltfImageLoader.js *)

(** A decoded image is opaque: the decoders are collaborators. *)
Definition Image : Type := nat.

(** The decoder a typed array is handed to, with its arguments. *)
Inductive DecodeCall : Type :=
  | loadKTX (typedArray : Uint8Array)
  | loadCRN (typedArray : Uint8Array)
  | loadImageFromTypedArray (uint8Array : Uint8Array) (format : string)
      (flipY : bool).

(** [a.subarray(begin, end)] on the elements of a typed array: both ends are
    clamped to the length. *)
Definition subarray (a : list byte) (begin end_ : nat) : list byte :=
  take (end_ - begin) (drop begin a).

(** [a[i] === b]; an index out of range reads [undefined]. *)
Definition index_is (a : list byte) (i : nat) (b : byte) : bool :=
  match a !! i with
  | Some x => Byte.eqb x b
  | None => false
  end.

Definition getMimeTypeFromTypedArray (typedArray : list byte)
  : Completion string :=
  let header := subarray typedArray 0 2 in
  let webpHeaderRIFFChars := subarray typedArray 0 4 in
  let webpHeaderWEBPChars := subarray typedArray 8 12 in
  if index_is header 0 x42 && index_is header 1 x49 then
    Normal "image/bmp"
  else if index_is header 0 x47 && index_is header 1 x49 then
    Normal "image/gif"
  else if index_is header 0 xff && index_is header 1 xd8 then
    Normal "image/jpeg"
  else if index_is header 0 x89 && index_is header 1 x50 then
    Normal "image/png"
  else if index_is header 0 xab && index_is header 1 x4b then
    Normal "image/ktx"
  else if index_is header 0 x48 && index_is header 1 x78 then
    Normal "image/crn"
  else if index_is header 0 x73 && index_is header 1 x42 then
    Normal "image/basis"
  else if index_is webpHeaderRIFFChars 0 x52 &&
          index_is webpHeaderRIFFChars 1 x49 &&
          index_is webpHeaderRIFFChars 2 x46 &&
          index_is webpHeaderRIFFChars 3 x46 &&
          index_is webpHeaderWEBPChars 0 x57 &&
          index_is webpHeaderWEBPChars 1 x45 &&
          index_is webpHeaderWEBPChars 2 x42 &&
          index_is webpHeaderWEBPChars 3 x50 then
    Normal "image/webp"
  else Throw (RuntimeError "Image data does not have valid header").

Definition loadImageFromBufferTypedArray (mem : Memory)
  (typedArray : Uint8Array) : Completion DecodeCall :=
  match getMimeTypeFromTypedArray (elements mem typedArray) with
  | Throw e => Throw e
  | Normal mimeType =>
      if String.eqb mimeType "image/ktx" then Normal (loadKTX typedArray)
      else if String.eqb mimeType "image/crn" then Normal (loadCRN typedArray)
      else Normal (loadImageFromTypedArray typedArray mimeType false)
  end.

Module GltfImageLoader.

Record t : Type := mk {
  _resourceCache : ResourceCache;
  _gltfResource : Resource;
  _baseResource : Resource;
  _gltf : option Gltf.t;
  _bufferViewId : option nat;
  _uri : option string;
  _bufferViewLoader : option Handle;
  _image : option Image;
  _state : ResourceLoaderState;
  _promise : Deferred;
  methods : Methods
}.

(** The constructor; [bufferViewId] and [uri] are what
    [GltfLoaderUtil.getImageUriOrBufferView] returned. *)
Definition new (resourceCache : ResourceCache)
  (gltfResource baseResource : Resource) (gltf : Gltf.t)
  (bufferViewId : option nat) (uri : option string) : t :=
  mk resourceCache gltfResource baseResource (Some gltf) bufferViewId uri
     None None UNLOADED Pending prototype_methods.

Definition set_gltf (v : option Gltf.t) (l : t) : t :=
  mk (_resourceCache l) (_gltfResource l) (_baseResource l) v
     (_bufferViewId l) (_uri l) (_bufferViewLoader l) (_image l)
     (_state l) (_promise l) (methods l).

Definition set_uri (v : option string) (l : t) : t :=
  mk (_resourceCache l) (_gltfResource l) (_baseResource l) (_gltf l)
     (_bufferViewId l) v (_bufferViewLoader l) (_image l)
     (_state l) (_promise l) (methods l).

Definition set_bufferViewLoader (v : option Handle) (l : t) : t :=
  mk (_resourceCache l) (_gltfResource l) (_baseResource l) (_gltf l)
     (_bufferViewId l) (_uri l) v (_image l)
     (_state l) (_promise l) (methods l).

Definition set_image (v : option Image) (l : t) : t :=
  mk (_resourceCache l) (_gltfResource l) (_baseResource l) (_gltf l)
     (_bufferViewId l) (_uri l) (_bufferViewLoader l) v
     (_state l) (_promise l) (methods l).

Definition set_state (v : ResourceLoaderState) (l : t) : t :=
  mk (_resourceCache l) (_gltfResource l) (_baseResource l) (_gltf l)
     (_bufferViewId l) (_uri l) (_bufferViewLoader l) (_image l)
     v (_promise l) (methods l).

Definition set_promise (v : Deferred) (l : t) : t :=
  mk (_resourceCache l) (_gltfResource l) (_baseResource l) (_gltf l)
     (_bufferViewId l) (_uri l) (_bufferViewLoader l) (_image l)
     (_state l) v (methods l).

Definition set_methods (v : Methods) (l : t) : t :=
  mk (_resourceCache l) (_gltfResource l) (_baseResource l) (_gltf l)
     (_bufferViewId l) (_uri l) (_bufferViewLoader l) (_image l)
     (_state l) (_promise l) v.

Definition write_state (s : ResourceLoaderState) : Eff t unit :=
  run modify (set_state s);
  emit (SetState s).

Definition promise_resolve : Eff t unit :=
  run modify (fun l => set_promise (settle (_promise l) Resolved) l);
  emit PromiseResolve.

Definition promise_reject (e : JsError) : Eff t unit :=
  run modify (fun l => set_promise (settle (_promise l) (Rejected e)) l);
  emit (PromiseReject e).

Definition unload : Eff t unit :=
  do l <- get;
  run (match _bufferViewLoader l with
       | Some bufferViewLoader => emit (CacheUnload bufferViewLoader)
       | None => ret tt
       end);
  run modify (set_bufferViewLoader None);
  run modify (set_uri None);
  run modify (set_image None);
  modify (set_gltf None).

Definition handleError (error : JsError) (errorMessage : string)
  : Eff t unit :=
  run unload;
  run write_state FAILED;
  promise_reject (getError error errorMessage).

(** [loadFromBufferView], up to the wait for [bufferViewLoader.promise]. *)
Definition loadFromBufferView (bufferViewId : nat) : Eff t unit :=
  do l <- get;
  do bufferViewLoader <-
    cache_load (_resourceCache l) (loadBufferView bufferViewId false);
  run write_state LOADING;
  modify (set_bufferViewLoader (Some bufferViewLoader)).

(** The outer [then] callback: it answers the decoder call whose promise
    the chain goes on to wait for, or nothing when the loader was
    destroyed. *)
Definition loadFromBufferView_then (mem : Memory) (typedArray : Uint8Array)
  : Eff t (option DecodeCall) :=
  do l <- get;
  if state_eqb (_state l) DESTROYED then
    run unload; ret None
  else
    do call <- lift (loadImageFromBufferTypedArray mem typedArray);
    ret (Some call).

(** The inner [then] callback of [loadFromBufferView] and the [then]
    callback of [loadFromUri] have the same body. *)
Definition image_then (image : Image) : Eff t unit :=
  do l <- get;
  if state_eqb (_state l) DESTROYED then unload
  else
    run unload;
    run modify (set_image (Some image));
    run write_state READY;
    promise_resolve.

Definition loadFromBufferView_otherwise (error : JsError) : Eff t unit :=
  handleError error "Failed to load embedded image".

(** [loadFromUri], up to the wait for the decoder; [uri] is read before the
    wait and kept by the [otherwise] callback. *)
Definition loadFromUri : Eff t unit :=
  write_state LOADING.

Definition loadFromUri_otherwise (uri : string) (error : JsError)
  : Eff t unit :=
  handleError error ("Failed to load image:" ++ uri)%string.

Definition load : Eff t unit :=
  do l <- get;
  match _bufferViewId l with
  | Some bufferViewId => loadFromBufferView bufferViewId
  | None => loadFromUri
  end.

(** What runs when the buffer view loader's promise settles, and when the
    decoder's promise settles. *)
Definition bufferViewLoader_fulfilled (mem : Memory)
  (typedArray : Uint8Array) : Eff t (option DecodeCall) :=
  fun s =>
    match loadFromBufferView_then mem typedArray s with
    | mkOutcome (Normal call) s' t => mkOutcome (Normal call) s' t
    | mkOutcome (Throw e) s' t =>
        match loadFromBufferView_otherwise e s' with
        | mkOutcome _ s'' t' => mkOutcome (Normal None) s'' (t ++ t')
        end
    end.

Definition bufferViewLoader_rejected (error : JsError) : Eff t unit :=
  loadFromBufferView_otherwise error.

Definition decode_fulfilled (image : Image) : Eff t unit :=
  otherwise (image_then image) loadFromBufferView_otherwise.

Definition decode_rejected (error : JsError) : Eff t unit :=
  loadFromBufferView_otherwise error.

Definition fetch_fulfilled (uri : string) (image : Image) : Eff t unit :=
  otherwise (image_then image) (loadFromUri_otherwise uri).

Definition fetch_rejected (uri : string) (error : JsError) : Eff t unit :=
  loadFromUri_otherwise uri error.

Definition isDestroyed (_ : t) : bool := false.

Definition destroy : Eff t unit :=
  run unload;
  run write_state DESTROYED;
  modify (fun l => set_methods (destroyObject (methods l)) l).

Definition call_isDestroyed (l : t) : Completion bool :=
  invoke_isDestroyed (m_isDestroyed (methods l)) (isDestroyed l).

Definition call_destroy : Eff t unit :=
  do l <- get; invoke (m_destroy (methods l)) destroy.

(** The success callbacks a pending promise may still run. *)
Inductive Continuation : Type :=
  | then_bufferViewLoader (mem : Memory) (typedArray : Uint8Array)
  | then_image (image : Image).

Definition resume (k : Continuation) : Eff t unit :=
  match k with
  | then_bufferViewLoader mem typedArray =>
      void (loadFromBufferView_then mem typedArray)
  | then_image image => image_then image
  end.

End GltfImageLoader.

(** ** GltfDracoLoader (src/unnamed/part_002) *)

(** Decoded Draco data is opaque. *)
Definition DecodedData : Type := nat.

Module GltfDracoLoader.

Record t : Type := mk {
  _resourceCache : ResourceCache;
  _gltfResource : Resource;
  _baseResource : Resource;
  _gltf : option Gltf.t;
  _draco : Gltf.Draco;
  _bufferViewLoader : option Handle;
  _bufferViewTypedArray : option Uint8Array;
  _decodePromise : option unit;
  _decodedData : option DecodedData;
  _state : ResourceLoaderState;
  _promise : Deferred;
  methods : Methods
}.

Definition new (resourceCache : ResourceCache)
  (gltfResource baseResource : Resource) (gltf : Gltf.t)
  (draco : Gltf.Draco) : t :=
  mk resourceCache gltfResource baseResource (Some gltf) draco
     None None None None UNLOADED Pending prototype_methods.

Definition set_gltf (v : option Gltf.t) (l : t) : t :=
  mk (_resourceCache l) (_gltfResource l) (_baseResource l) v (_draco l)
     (_bufferViewLoader l) (_bufferViewTypedArray l) (_decodePromise l)
     (_decodedData l) (_state l) (_promise l) (methods l).

Definition set_bufferViewLoader (v : option Handle) (l : t) : t :=
  mk (_resourceCache l) (_gltfResource l) (_baseResource l) (_gltf l)
     (_draco l) v (_bufferViewTypedArray l) (_decodePromise l)
     (_decodedData l) (_state l) (_promise l) (methods l).

Definition set_bufferViewTypedArray (v : option Uint8Array) (l : t) : t :=
  mk (_resourceCache l) (_gltfResource l) (_baseResource l) (_gltf l)
     (_draco l) (_bufferViewLoader l) v (_decodePromise l)
     (_decodedData l) (_state l) (_promise l) (methods l).

Definition set_decodePromise (v : option unit) (l : t) : t :=
  mk (_resourceCache l) (_gltfResource l) (_baseResource l) (_gltf l)
     (_draco l) (_bufferViewLoader l) (_bufferViewTypedArray l) v
     (_decodedData l) (_state l) (_promise l) (methods l).

Definition set_decodedData (v : option DecodedData) (l : t) : t :=
  mk (_resourceCache l) (_gltfResource l) (_baseResource l) (_gltf l)
     (_draco l) (_bufferViewLoader l) (_bufferViewTypedArray l)
     (_decodePromise l) v (_state l) (_promise l) (methods l).

Definition set_state (v : ResourceLoaderState) (l : t) : t :=
  mk (_resourceCache l) (_gltfResource l) (_baseResource l) (_gltf l)
     (_draco l) (_bufferViewLoader l) (_bufferViewTypedArray l)
     (_decodePromise l) (_decodedData l) v (_promise l) (methods l).

Definition set_promise (v : Deferred) (l : t) : t :=
  mk (_resourceCache l) (_gltfResource l) (_baseResource l) (_gltf l)
     (_draco l) (_bufferViewLoader l) (_bufferViewTypedArray l)
     (_decodePromise l) (_decodedData l) (_state l) v (methods l).

Definition set_methods (v : Methods) (l : t) : t :=
  mk (_resourceCache l) (_gltfResource l) (_baseResource l) (_gltf l)
     (_draco l) (_bufferViewLoader l) (_bufferViewTypedArray l)
     (_decodePromise l) (_decodedData l) (_state l) (_promise l) v.

Definition write_state (s : ResourceLoaderState) : Eff t unit :=
  run modify (set_state s);
  emit (SetState s).

Definition promise_resolve : Eff t unit :=
  run modify (fun l => set_promise (settle (_promise l) Resolved) l);
  emit PromiseResolve.

Definition promise_reject (e : JsError) : Eff t unit :=
  run modify (fun l => set_promise (settle (_promise l) (Rejected e)) l);
  emit (PromiseReject e).

Definition unload : Eff t unit :=
  do l <- get;
  run (match _bufferViewLoader l with
       | Some bufferViewLoader => emit (CacheUnload bufferViewLoader)
       | None => ret tt
       end);
  run modify (set_bufferViewLoader None);
  run modify (set_bufferViewTypedArray None);
  run modify (set_decodedData None);
  modify (set_gltf None).

Definition handleError (error : JsError) : Eff t unit :=
  run unload;
  run write_state FAILED;
  promise_reject (getError error "Failed to load Draco").

(** [load], up to the wait for [bufferViewLoader.promise]. *)
Definition load : Eff t unit :=
  do l <- get;
  do bufferViewLoader <-
    cache_load (_resourceCache l)
      (loadBufferView (Gltf.draco_bufferView (_draco l)) false);
  run write_state LOADING;
  modify (set_bufferViewLoader (Some bufferViewLoader)).

Definition load_then (typedArray : Uint8Array) : Eff t unit :=
  do l <- get;
  if state_eqb (_state l) DESTROYED then unload
  else modify (set_bufferViewTypedArray (Some typedArray)).

Definition load_otherwise (error : JsError) : Eff t unit :=
  handleError error.

(** [update], up to the wait for the decode promise.  The source obtains
    the promise from [when.resolve()], marked TODO, and then tests whether
    it is defined; [decodePromise] is that value, [Some tt] in the source
    as it stands. *)
Definition update (decodePromise : option unit) : Eff t unit :=
  do l <- get;
  match _bufferViewTypedArray l with
  | None => ret tt
  | Some _ =>
      match _decodePromise l with
      | Some _ => ret tt
      | None =>
          match decodePromise with
          | None => ret tt
          | Some p => modify (set_decodePromise (Some p))
          end
      end
  end.

Definition update_then (decodedData : option DecodedData) : Eff t unit :=
  do l <- get;
  if state_eqb (_state l) DESTROYED then unload
  else
    run unload;
    run modify (set_decodedData decodedData);
    run write_state READY;
    promise_resolve.

Definition update_otherwise (error : JsError) : Eff t unit :=
  handleError error.

Definition bufferViewLoader_fulfilled (typedArray : Uint8Array)
  : Eff t unit :=
  otherwise (load_then typedArray) load_otherwise.

Definition bufferViewLoader_rejected (error : JsError) : Eff t unit :=
  load_otherwise error.

Definition decode_fulfilled (decodedData : option DecodedData)
  : Eff t unit :=
  otherwise (update_then decodedData) update_otherwise.

Definition decode_rejected (error : JsError) : Eff t unit :=
  update_otherwise error.

Definition isDestroyed (_ : t) : bool := false.

Definition destroy : Eff t unit :=
  run unload;
  run write_state DESTROYED;
  modify (fun l => set_methods (destroyObject (methods l)) l).

Definition call_isDestroyed (l : t) : Completion bool :=
  invoke_isDestroyed (m_isDestroyed (methods l)) (isDestroyed l).

Definition call_update (decodePromise : option unit) : Eff t unit :=
  do l <- get; invoke (m_update (methods l)) (update decodePromise).

Definition call_destroy : Eff t unit :=
  do l <- get; invoke (m_destroy (methods l)) destroy.

(** The success callbacks a pending promise may still run. *)
Inductive Continuation : Type :=
  | then_bufferViewLoader (typedArray : Uint8Array)
  | then_decode (decodedData : option DecodedData).

Definition resume (k : Continuation) : Eff t unit :=
  match k with
  | then_bufferViewLoader typedArray => load_then typedArray
  | then_decode decodedData => update_then decodedData
  end.

End GltfDracoLoader.

(** ** GltfJsonLoader (src/unnamed/part_001) *)

Module GltfJsonLoader.

Record t : Type := mk {
  _resourceCache : ResourceCache;
  _gltfResource : Resource;
  _baseResource : Resource;
  _keepResident : bool;
  _gltf : option Gltf.t;
  _bufferLoaders : list Handle;
  _bufferLoader : option (list Handle);  (* created by [unload] *)
  _state : ResourceLoaderState;
  _promise : Deferred;
  methods : Methods
}.

Definition new (resourceCache : ResourceCache)
  (gltfResource baseResource : Resource) (keepResident : bool) : t :=
  mk resourceCache gltfResource baseResource keepResident None [] None
     UNLOADED Pending prototype_methods.

Definition set_gltf (v : option Gltf.t) (l : t) : t :=
  mk (_resourceCache l) (_gltfResource l) (_baseResource l)
     (_keepResident l) v (_bufferLoaders l) (_bufferLoader l)
     (_state l) (_promise l) (methods l).

Definition set_bufferLoaders (v : list Handle) (l : t) : t :=
  mk (_resourceCache l) (_gltfResource l) (_baseResource l)
     (_keepResident l) (_gltf l) v (_bufferLoader l)
     (_state l) (_promise l) (methods l).

Definition set_bufferLoader (v : option (list Handle)) (l : t) : t :=
  mk (_resourceCache l) (_gltfResource l) (_baseResource l)
     (_keepResident l) (_gltf l) (_bufferLoaders l) v
     (_state l) (_promise l) (methods l).

Definition set_state (v : ResourceLoaderState) (l : t) : t :=
  mk (_resourceCache l) (_gltfResource l) (_baseResource l)
     (_keepResident l) (_gltf l) (_bufferLoaders l) (_bufferLoader l)
     v (_promise l) (methods l).

Definition set_promise (v : Deferred) (l : t) : t :=
  mk (_resourceCache l) (_gltfResource l) (_baseResource l)
     (_keepResident l) (_gltf l) (_bufferLoaders l) (_bufferLoader l)
     (_state l) v (methods l).

Definition set_methods (v : Methods) (l : t) : t :=
  mk (_resourceCache l) (_gltfResource l) (_baseResource l)
     (_keepResident l) (_gltf l) (_bufferLoaders l) (_bufferLoader l)
     (_state l) (_promise l) v.

(** [gltfJsonLoader._bufferLoaders.push(bufferLoader)] *)
Definition push_bufferLoader (bufferLoader : Handle) (l : t) : t :=
  set_bufferLoaders (_bufferLoaders l ++ [bufferLoader]) l.

Definition write_state (s : ResourceLoaderState) : Eff t unit :=
  run modify (set_state s);
  emit (SetState s).

Definition promise_resolve : Eff t unit :=
  run modify (fun l => set_promise (settle (_promise l) Resolved) l);
  emit PromiseResolve.

Definition promise_reject (e : JsError) : Eff t unit :=
  run modify (fun l => set_promise (settle (_promise l) (Rejected e)) l);
  emit (PromiseReject e).

(** [array.forEach(callback)] *)
Fixpoint forEach {A} (array : list A) (callback : A -> Eff t unit)
  : Eff t unit :=
  match array with
  | [] => ret tt
  | x :: rest => run callback x; forEach rest callback
  end.

Definition unload : Eff t unit :=
  do l <- get;
  run forEach (_bufferLoaders l)
        (fun bufferLoader => emit (CacheUnload bufferLoader));
  run modify (set_bufferLoader (Some []));
  modify (set_gltf None).

(** Each [bufferLoader.promise.then] and each data URI fetch stores the
    typed array it resolves to in [buffer.extras._pipeline.source]. *)
Definition store_sources (resolved : list (nat * Uint8Array))
  (gltf : Gltf.t) : Gltf.t :=
  foldl (fun g '(bufferId, typedArray) =>
           Gltf.set_buffers
             (alter (Gltf.set_source (Some typedArray)) bufferId
                (Gltf.buffers g)) g)
        gltf resolved.

Section Pipeline.

(** The collaborators of [processGltf]: [parse] is the choice between
    [parseGlb] and [getJsonFromTypedArray] followed by
    [addPipelineExtras]; the others are the functions of the same name
    (Core and ThirdParty/GltfPipeline). *)
Variable parse : list byte -> Completion Gltf.t.
Variable isDataUri : string -> bool.
Variable updateVersion : Gltf.t -> Completion Gltf.t.
Variable addDefaults : Gltf.t -> Gltf.t.
Variable removePipelineExtras : Gltf.t -> Gltf.t.

(** [decodeDataUris]: the buffers whose data URI is deleted and fetched,
    and the document without those URIs. *)
Fixpoint decodeDataUris_buffers (buffers : list Gltf.Buffer)
  (bufferId : nat) : list Gltf.Buffer * list (nat * string) :=
  match buffers with
  | [] => ([], [])
  | buffer :: rest =>
      let '(rest', promises) := decodeDataUris_buffers rest (S bufferId) in
      match Gltf.uri buffer with
      | Some bufferUri =>
          if isDataUri bufferUri
          then (Gltf.set_uri None buffer :: rest',
                (bufferId, bufferUri) :: promises)
          else (buffer :: rest', promises)
      | None => (buffer :: rest', promises)
      end
  end.

Definition decodeDataUris (gltf : Gltf.t)
  : Gltf.t * list (nat * string) :=
  let '(buffers, promises) :=
    decodeDataUris_buffers (Gltf.buffers gltf) 0 in
  (Gltf.set_buffers buffers gltf, promises).

(** The loop of [upgradeVersion]: the external buffers requested from the
    cache, with the buffer each one is for. *)
Fixpoint upgradeVersion_buffers (buffers : list Gltf.Buffer)
  (bufferId : nat) : Eff t (list (nat * Handle)) :=
  match buffers with
  | [] => ret []
  | buffer :: rest =>
      do l <- get;
      do here <-
        match Gltf.source buffer, Gltf.uri buffer with
        | None, Some uri =>
            do bufferLoader <-
              cache_load (_resourceCache l)
                (loadExternalBuffer
                   (getDerivedResource (_baseResource l) uri) false);
            run modify (push_bufferLoader bufferLoader);
            ret [(bufferId, bufferLoader)]
        | _, _ => ret []
        end;
      do promises <- upgradeVersion_buffers rest (S bufferId);
      ret (here ++ promises)
  end.

(** [upgradeVersion], up to the wait for [when.all(promises)]; [None]
    when it answers [when.resolve()] at once. *)
Definition upgradeVersion (gltf : Gltf.t)
  : Eff t (option (list (nat * Handle))) :=
  if String.eqb (Gltf.asset_version gltf) "2.0" then ret None
  else
    do promises <- upgradeVersion_buffers (Gltf.buffers gltf) 0;
    ret (Some promises).

(** The callback of [when.all(promises).then] in [upgradeVersion]. *)
Definition upgradeVersion_then (gltf : Gltf.t)
  (resolved : list (nat * Uint8Array)) : Eff t Gltf.t :=
  lift (updateVersion (store_sources resolved gltf)).

(** The loop of [loadEmbeddedBuffers]. *)
Fixpoint loadEmbeddedBuffers_buffers (buffers : list Gltf.Buffer)
  (bufferId : nat) : Eff t (list Handle) :=
  match buffers with
  | [] => ret []
  | buffer :: rest =>
      do l <- get;
      do here <-
        match Gltf.source buffer, Gltf.uri buffer with
        | Some source, None =>
            do bufferLoader <-
              cache_load (_resourceCache l)
                (loadEmbeddedBuffer (_gltfResource l) bufferId
                   (Some source) (_keepResident l));
            run modify (push_bufferLoader bufferLoader);
            ret [bufferLoader]
        | _, _ => ret []
        end;
      do promises <- loadEmbeddedBuffers_buffers rest (S bufferId);
      ret (here ++ promises)
  end.

Definition loadEmbeddedBuffers (gltf : Gltf.t) : Eff t (list Handle) :=
  loadEmbeddedBuffers_buffers (Gltf.buffers gltf) 0.

(** [processGltf], cut at its promises.  First the part that runs at
    once: parse, then start decoding the data URIs. *)
Definition processGltf (typedArray : list byte)
  : Eff t (Gltf.t * list (nat * string)) :=
  do gltf <- lift (parse typedArray);
  ret (decodeDataUris gltf).

(** The callback of [decodeDataUris(gltf).then]. *)
Definition processGltf_then_decodeDataUris (gltf : Gltf.t)
  (decoded : list (nat * Uint8Array))
  : Eff t (Gltf.t * option (list (nat * Handle))) :=
  let gltf := store_sources decoded gltf in
  do promises <- upgradeVersion gltf;
  ret (gltf, promises).

(** The callback of [upgradeVersion(gltfJsonLoader, gltf).then]. *)
Definition processGltf_then_upgradeVersion (gltf : Gltf.t)
  : Eff t (Gltf.t * list Handle) :=
  let gltf := addDefaults gltf in
  do promises <- loadEmbeddedBuffers gltf;
  ret (gltf, promises).

(** The callback of [loadEmbeddedBuffers(gltfJsonLoader, gltf).then]. *)
Definition processGltf_then_loadEmbeddedBuffers (gltf : Gltf.t)
  : Eff t Gltf.t :=
  ret (removePipelineExtras gltf).

(** [load], up to the wait for [fetchArrayBuffer()]. *)
Definition load : Eff t unit :=
  write_state LOADING.

(** The first [then] callback of [load]: [None] is the [undefined] it
    returns when the loader was destroyed. *)
Definition load_then_fetch (arrayBuffer : list byte)
  : Eff t (option (Gltf.t * list (nat * string))) :=
  do l <- get;
  if state_eqb (_state l) DESTROYED then
    run unload; ret None
  else
    do started <- processGltf arrayBuffer;
    ret (Some started).

(** The second [then] callback of [load]. *)
Definition load_then_processGltf (gltf : option Gltf.t) : Eff t unit :=
  do l <- get;
  if state_eqb (_state l) DESTROYED then unload
  else
    run modify (set_gltf gltf);
    run write_state READY;
    promise_resolve.

Definition load_otherwise (error : JsError) : Eff t unit :=
  run unload;
  run write_state FAILED;
  do l <- get;
  promise_reject
    (getError error
       ("Failed to load glTF: " ++ Resource_url (_gltfResource l))%string).

(** The success callbacks of a whole load run in their order, from the answer
    of the fetch to the second [then] callback of [load]: [decoded] are the
    typed arrays the data URIs decode to, [external] those the external
    buffers resolve to. *)
Definition fetch_to_ready (arrayBuffer : list byte)
  (decoded external : list (nat * Uint8Array)) : Eff t unit :=
  do started <- load_then_fetch arrayBuffer;
  match started with
  | None => load_then_processGltf None
  | Some (gltf, _) =>
      do upgrading <- processGltf_then_decodeDataUris gltf decoded;
      do gltf <-
        match upgrading with
        | (gltf, None) => ret gltf
        | (gltf, Some _) => upgradeVersion_then gltf external
        end;
      do embedded <- processGltf_then_upgradeVersion gltf;
      do gltf <- processGltf_then_loadEmbeddedBuffers (fst embedded);
      load_then_processGltf (Some gltf)
  end.

Definition fetch_fulfilled (arrayBuffer : list byte)
  (decoded external : list (nat * Uint8Array)) : Eff t unit :=
  otherwise (fetch_to_ready arrayBuffer decoded external) load_otherwise.

Definition fetch_rejected (error : JsError) : Eff t unit :=
  load_otherwise error.

(** The success callbacks a pending promise may still run: the two of
    [load] and those inside [processGltf] and [upgradeVersion]. *)
Inductive Continuation : Type :=
  | then_fetch (arrayBuffer : list byte)
  | then_decodeDataUris (gltf : Gltf.t) (decoded : list (nat * Uint8Array))
  | then_all_buffers (gltf : Gltf.t) (resolved : list (nat * Uint8Array))
  | then_upgradeVersion (gltf : Gltf.t)
  | then_loadEmbeddedBuffers (gltf : Gltf.t)
  | then_processGltf (gltf : option Gltf.t).

Definition resume (k : Continuation) : Eff t unit :=
  match k with
  | then_fetch arrayBuffer => void (load_then_fetch arrayBuffer)
  | then_decodeDataUris gltf decoded =>
      void (processGltf_then_decodeDataUris gltf decoded)
  | then_all_buffers gltf resolved => void (upgradeVersion_then gltf resolved)
  | then_upgradeVersion gltf => void (processGltf_then_upgradeVersion gltf)
  | then_loadEmbeddedBuffers gltf =>
      void (processGltf_then_loadEmbeddedBuffers gltf)
  | then_processGltf gltf => load_then_processGltf gltf
  end.

End Pipeline.

Definition isDestroyed (_ : t) : bool := false.

Definition destroy : Eff t unit :=
  run unload;
  run write_state DESTROYED;
  modify (fun l => set_methods (destroyObject (methods l)) l).

Definition call_isDestroyed (l : t) : Completion bool :=
  invoke_isDestroyed (m_isDestroyed (methods l)) (isDestroyed l).

Definition call_destroy : Eff t unit :=
  do l <- get; invoke (m_destroy (methods l)) destroy.

End GltfJsonLoader.

(** ** Scene/GltfLoader.js: vertex attributes and indices *)

(** The records of Scene/ModelComponents.js, with the fields the loader
    assigns. *)
Module ModelComponents.

Record VertexAttribute : Type := mkVertexAttribute {
  semantic : string;
  constantValue : option nat;
  byteOffset : option nat;
  byteStride : option nat;
  componentType : N;
  normalized : option bool;
  count : nat;
  type : string;
  cacheResource : option Handle
}.

Record Indices : Type := mkIndices {
  indices_constantValue : option nat;
  indexDatatype : N;
  indices_count : nat;
  indices_cacheResource : option Handle
}.

End ModelComponents.

(** [object.name] throws a TypeError when [object] is undefined. *)
Definition property {A B} (name : string) (object : option A) (read : A -> B)
  : Completion B :=
  match object with
  | Some o => Normal (read o)
  | None =>
      Throw (TypeError ("Cannot read property '" ++ name ++ "' of undefined")%string)
  end.

(** [array[i]]: [undefined] when [i] is undefined or out of range, a
    TypeError when [array] itself is undefined. *)
Definition element {A} (name : string) (array : option (list A))
  (i : option nat) : Completion (option A) :=
  property name array (fun l => i ≫= (fun n => l !! n)).

Module GltfLoader.

Record t : Type := mk {
  _gltfResource : Resource;
  _baseResource : Resource;
  _keepResident : bool;
  _asynchronous : bool;
  _gltfCacheResource : option Handle
}.

Section Cache.

(** The imported [ResourceCache]. *)
Variable ResourceCache_ : ResourceCache.

Definition loadVertexBuffer (gltf : Gltf.t) (accessorId : nat)
  (semantic : string) (draco : option Gltf.Draco)
  : Eff t (option Handle) :=
  do loader <- get;
  do accessor <- lift (element "accessors" (Gltf.accessors gltf) (Some accessorId));
  do bufferViewId <- lift (property "bufferView" accessor Gltf.bufferView);
  match draco, bufferViewId with
  | None, None => ret None
  | _, _ =>
      do resource <-
        cache_load ResourceCache_
          (loadVertexBuffer bufferViewId draco semantic false
             (_asynchronous loader));
      ret (Some resource)
  end.

Definition loadVertexAttribute (gltf : Gltf.t) (accessorId : nat)
  (semantic : string) (draco : option Gltf.Draco)
  : Eff t ModelComponents.VertexAttribute :=
  do vertexBufferCacheResource <-
    loadVertexBuffer gltf accessorId semantic draco;
  (* Accessors default to all zeros when there is no buffer view *)
  let constantValue :=
    match vertexBufferCacheResource with Some _ => None | None => Some 0 end in
  do accessor <- lift (element "accessors" (Gltf.accessors gltf) (Some accessorId));
  do bufferViewId <- lift (property "bufferView" accessor Gltf.bufferView);
  do bufferView <- lift (element "bufferViews" (Gltf.bufferViews gltf) bufferViewId);
  do byteOffset <- lift (property "byteOffset" accessor Gltf.accessor_byteOffset);
  do byteStride <- lift (property "byteStride" bufferView Gltf.byteStride);
  do componentType <- lift (property "componentType" accessor Gltf.componentType);
  do normalized <- lift (property "normalized" accessor Gltf.normalized);
  do count <- lift (property "count" accessor Gltf.count);
  do type <- lift (property "type" accessor Gltf.type);
  ret (ModelComponents.mkVertexAttribute semantic constantValue byteOffset
         byteStride componentType normalized count type
         vertexBufferCacheResource).

Definition loadIndexBuffer (gltf : Gltf.t) (accessorId : nat)
  (draco : option Gltf.Draco) : Eff t (option Handle) :=
  do loader <- get;
  do accessor <- lift (element "accessors" (Gltf.accessors gltf) (Some accessorId));
  do bufferViewId <- lift (property "bufferView" accessor Gltf.bufferView);
  match draco, bufferViewId with
  | None, None => ret None
  | _, _ =>
      do resource <-
        cache_load ResourceCache_
          (loadIndexBuffer accessorId draco false (_asynchronous loader));
      ret (Some resource)
  end.

Definition loadIndices (gltf : Gltf.t) (accessorId : nat)
  (draco : option Gltf.Draco) : Eff t ModelComponents.Indices :=
  do indexBufferCacheResource <- loadIndexBuffer gltf accessorId draco;
  (* Accessors default to all zeros when there is no buffer view *)
  let constantValue :=
    match indexBufferCacheResource with Some _ => None | None => Some 0 end in
  do accessor <- lift (element "accessors" (Gltf.accessors gltf) (Some accessorId));
  do indexDatatype <- lift (property "componentType" accessor Gltf.componentType);
  do count <- lift (property "count" accessor Gltf.count);
  ret (ModelComponents.mkIndices constantValue indexDatatype count
         indexBufferCacheResource).

End Cache.

End GltfLoader.

(** ** What the specification says, for comparison with the code *)

(** A signature is a run of bytes found at an offset of the buffer. *)
Definition has_signature (sig : list byte) (offset : nat) (bs : list byte)
  : Prop :=
  take (length sig) (drop offset bs) = sig.

(** Section 6 of the specification: the two-byte signatures at offset 0. *)
Definition two_byte_signatures : list (list byte * string) :=
  [ ([x42; x49], "image/bmp");
    ([x47; x49], "image/gif");
    ([xff; xd8], "image/jpeg");
    ([x89; x50], "image/png");
    ([xab; x4b], "image/ktx");
    ([x48; x78], "image/crn");
    ([x73; x42], "image/basis") ].

(** "RIFF" and "WEBP". *)
Definition RIFF : list byte := [x52; x49; x46; x46].
Definition WEBP : list byte := [x57; x45; x42; x50].

Definition is_webp (bs : list byte) : Prop :=
  has_signature RIFF 0 bs /\ has_signature WEBP 8 bs.

Definition invalid_header : JsError :=
  RuntimeError "Image data does not have valid header".

(** The decode path section 4.3 names for a MIME type: the compressed
    texture containers have their own, everything else is an ordinary image
    decode. *)
Definition decode_path (mimeType : string) (typedArray : Uint8Array)
  : DecodeCall :=
  if String.eqb mimeType "image/ktx" then loadKTX typedArray
  else if String.eqb mimeType "image/crn" then loadCRN typedArray
  else loadImageFromTypedArray typedArray mimeType false.

(** [sig] read byte by byte from [offset], as the code compares. *)
Fixpoint matches_at (bs : list byte) (offset : nat) (sig : list byte) : bool :=
  match sig with
  | [] => true
  | x :: sig' => index_is bs offset x && matches_at bs (S offset) sig'
  end.

(** ** Statements shared by the loaders *)

(** The failure path of section 7, for a loader object [S] whose child
    handles are [children]: the handler returns, and what it did is, in this
    order, one release per child handle, the write of FAILED, and the
    rejection with the annotated error. *)
Definition fails_after_unload {S : Type} (children : S -> list Handle)
  (state : S -> ResourceLoaderState) (promise : S -> Deferred)
  (message : S -> string) (handler : JsError -> Eff S unit) : Prop :=
  forall (l : S) (error : JsError),
    let o := handler error l in
    let annotated := getError error (message l) in
    result o = Normal tt /\
    trace o =
      map CacheUnload (children l) ++ [SetState FAILED; PromiseReject annotated] /\
    state (final o) = FAILED /\
    promise (final o) = settle (promise l) (Rejected annotated) /\
    context_message annotated = Some (message l) /\
    underlying_cause annotated = Some error.



(** The callbacks of a list run one after the other, each on the object the
    previous one left, whether it returned or threw. *)
Fixpoint resume_all {S K : Type} (resume : K -> Eff S unit) (ks : list K)
  : Eff S unit :=
  match ks with
  | [] => ret tt
  | k :: ks' => fun s => andThen (resume k s) (resume_all resume ks')
  end.


(** ** What [upgradeVersion] and [loadEmbeddedBuffers] ask of the cache *)

(** The buffers [upgradeVersion] loads: those with a uri and no source yet,
    with their index. *)
Fixpoint external_buffers (buffers : list Gltf.Buffer) (bufferId : nat)
  : list (nat * string) :=
  match buffers with
  | [] => []
  | buffer :: rest =>
      match Gltf.source buffer, Gltf.uri buffer with
      | None, Some uri => (bufferId, uri) :: external_buffers rest (S bufferId)
      | _, _ => external_buffers rest (S bufferId)
      end
  end.

Definition external_request (baseResource : Resource) (b : nat * string)
  : CacheRequest :=
  loadExternalBuffer (getDerivedResource baseResource (snd b)) false.

(** The buffers [loadEmbeddedBuffers] loads: those with a source and no
    uri. *)
Fixpoint embedded_buffers (buffers : list Gltf.Buffer) (bufferId : nat)
  : list (nat * Uint8Array) :=
  match buffers with
  | [] => []
  | buffer :: rest =>
      match Gltf.source buffer, Gltf.uri buffer with
      | Some source, None =>
          (bufferId, source) :: embedded_buffers rest (S bufferId)
      | _, _ => embedded_buffers rest (S bufferId)
      end
  end.

Definition embedded_request (gltfResource : Resource) (keepResident : bool)
  (b : nat * Uint8Array) : CacheRequest :=
  loadEmbeddedBuffer gltfResource (fst b) (Some (snd b)) keepResident.

(** The cache is asked [request] and answers with the loader it keeps for
    it. *)
Definition asked (cache : ResourceCache) (request : CacheRequest) : Event :=
  CacheLoad request (cache request).

Definition is_cache_load (e : Event) : bool :=
  match e with CacheLoad _ _ => true | _ => false end.

(** Code that leaves the methods of the loader object as they are. *)
Definition keeps_methods {S A : Type} (methods : S -> Methods) (m : Eff S A)
  : Prop :=
  forall l : S, methods (final (m l)) = methods l.

(** ** Concrete inputs *)

Module Example.

(** A cache that keeps one loader per kind of request; buffer views are told
    apart by their id. *)
Definition cache : ResourceCache :=
  fun request =>
    match request with
    | loadExternalBuffer _ _ => 1
    | loadEmbeddedBuffer _ bufferId _ _ => 100 + bufferId
    | loadBufferView bufferViewId _ => 200 + bufferViewId
    | loadVertexBuffer _ _ _ _ _ => 300
    | loadIndexBuffer accessorId _ _ _ => 400 + accessorId
    end.

Definition gltfResource : Resource := ResourceUrl "model.gltf".
Definition baseResource : Resource := ResourceUrl "model.gltf".

(** One array buffer of sixteen bytes: a PNG header. *)
Definition png_bytes : list byte :=
  [x89; x50; x4e; x47; x0d; x0a; x1a; x0a;
   x00; x00; x00; x0d; x49; x48; x44; x52].

Definition memory : Memory := {[ 0 := png_bytes ]}.

(** The whole buffer as the parent typed array, and a window of it. *)
Definition parent : Uint8Array := mkUint8Array 0 0 16.

(** A buffer view of bytes 4 to 11 of an external buffer. *)
Definition bufferViewLoader : GltfBufferViewLoader.t :=
  GltfBufferViewLoader.new cache gltfResource baseResource
    (Some "geometry.bin") 0 4 8.

Definition fetch_failed : JsError := External "404 Not Found".

(** A version 1.0 document with one external buffer, and collaborators of
    [processGltf] that parse every file to it and upgrade by setting the
    version. *)
Definition legacy_gltf : Gltf.t :=
  Gltf.mk "1.0" [Gltf.mkBuffer (Some "geometry.bin") None] None None.

Definition parse (_ : list byte) : Completion Gltf.t := Normal legacy_gltf.
Definition isDataUri (_ : string) : bool := false.
Definition updateVersion (gltf : Gltf.t) : Completion Gltf.t :=
  Normal (Gltf.mk "2.0" (Gltf.buffers gltf) (Gltf.bufferViews gltf)
            (Gltf.accessors gltf)).
Definition addDefaults (gltf : Gltf.t) : Gltf.t := gltf.
Definition removePipelineExtras (gltf : Gltf.t) : Gltf.t := gltf.

Definition jsonLoader : GltfJsonLoader.t :=
  GltfJsonLoader.new cache gltfResource baseResource false.

(** An image embedded in buffer view 2, and Draco data in buffer view 3. *)
Definition imageLoader : GltfImageLoader.t :=
  GltfImageLoader.new cache gltfResource baseResource legacy_gltf (Some 2)
    None.

Definition dracoLoader : GltfDracoLoader.t :=
  GltfDracoLoader.new cache gltfResource baseResource legacy_gltf
    (Gltf.mkDraco 3 [("POSITION", 0)]).

(** A document with one accessor that has no buffer view, and a loader for
    it. *)
Definition constant_accessor : Gltf.Accessor :=
  Gltf.mkAccessor None None 5126%N None 3 "VEC3".

Definition constant_gltf : Gltf.t :=
  Gltf.mk "2.0" [] (Some []) (Some [constant_accessor]).

Definition gltfLoader : GltfLoader.t :=
  GltfLoader.mk gltfResource baseResource false true None.

End Example.

(** ** The life of a loader, event by event *)

(** What can happen to a buffer view loader once [load] has run: the buffer
    loader's promise settles, or the owner calls [destroy]. *)
Inductive BufferViewEvent : Type :=
  | BufferLoaderFulfilled (mem : Memory) (bufferTypedArray : Uint8Array)
  | BufferLoaderRejected (error : JsError)
  | BufferViewDestroy.

Definition bufferView_event (ev : BufferViewEvent)
  : Eff GltfBufferViewLoader.t unit :=
  match ev with
  | BufferLoaderFulfilled mem bufferTypedArray =>
      GltfBufferViewLoader.bufferLoader_fulfilled mem bufferTypedArray
  | BufferLoaderRejected error =>
      GltfBufferViewLoader.bufferLoader_rejected error
  | BufferViewDestroy => GltfBufferViewLoader.call_destroy
  end.

(** The same for an image loader, on either of its two paths. *)
Inductive ImageEvent : Type :=
  | ImageBufferViewFulfilled (mem : Memory) (typedArray : Uint8Array)
  | ImageBufferViewRejected (error : JsError)
  | ImageDecodeFulfilled (image : Image)
  | ImageDecodeRejected (error : JsError)
  | ImageFetchFulfilled (uri : string) (image : Image)
  | ImageFetchRejected (uri : string) (error : JsError)
  | ImageDestroy.

Definition image_event (ev : ImageEvent) : Eff GltfImageLoader.t unit :=
  match ev with
  | ImageBufferViewFulfilled mem typedArray =>
      void (GltfImageLoader.bufferViewLoader_fulfilled mem typedArray)
  | ImageBufferViewRejected error =>
      GltfImageLoader.bufferViewLoader_rejected error
  | ImageDecodeFulfilled image => GltfImageLoader.decode_fulfilled image
  | ImageDecodeRejected error => GltfImageLoader.decode_rejected error
  | ImageFetchFulfilled uri image => GltfImageLoader.fetch_fulfilled uri image
  | ImageFetchRejected uri error => GltfImageLoader.fetch_rejected uri error
  | ImageDestroy => GltfImageLoader.call_destroy
  end.

(** The same for a Draco loader, with the calls of [update]. *)
Inductive DracoEvent : Type :=
  | DracoBufferViewFulfilled (typedArray : Uint8Array)
  | DracoBufferViewRejected (error : JsError)
  | DracoUpdate (decodePromise : option unit)
  | DracoDecodeFulfilled (decodedData : option DecodedData)
  | DracoDecodeRejected (error : JsError)
  | DracoDestroy.

Definition draco_event (ev : DracoEvent) : Eff GltfDracoLoader.t unit :=
  match ev with
  | DracoBufferViewFulfilled typedArray =>
      GltfDracoLoader.bufferViewLoader_fulfilled typedArray
  | DracoBufferViewRejected error =>
      GltfDracoLoader.bufferViewLoader_rejected error
  | DracoUpdate decodePromise => GltfDracoLoader.call_update decodePromise
  | DracoDecodeFulfilled decodedData =>
      GltfDracoLoader.decode_fulfilled decodedData
  | DracoDecodeRejected error => GltfDracoLoader.decode_rejected error
  | DracoDestroy => GltfDracoLoader.call_destroy
  end.

(** The loaders requested by a run, in order. *)
Fixpoint loads (tr : Trace) : list Handle :=
  match tr with
  | [] => []
  | CacheLoad _ h :: tr' => h :: loads tr'
  | _ :: tr' => loads tr'
  end.

(** The requests of a run, in order. *)
Fixpoint requests (tr : Trace) : list CacheRequest :=
  match tr with
  | [] => []
  | CacheLoad r _ :: tr' => r :: requests tr'
  | _ :: tr' => requests tr'
  end.

(** ** Data URIs *)



(** ** Scene/GltfLoader.js: the node hierarchy *)

Module GltfNodes.

(** A node of the glTF JSON, with the properties the loader reads. *)
Record GltfNode : Type := mkGltfNode {
  mesh : option nat;
  children : option (list nat)
}.

(** A loaded node: what [loadNode] made of the glTF node, and the
    [children] that [loadNodes] assigns to it.  An element of a JavaScript
    array may be a hole. *)
#[warnings="-register-all"]
Inductive Node (A : Type) : Type :=
  | mkNode (node : A) (node_children : option (list (option (Node A)))).
Arguments mkNode {A} node node_children.

(** What the engine throws when the call stack is exhausted. *)
Definition stack_overflow : JsError :=
  RangeError "Maximum call stack size exceeded".

Section Nodes.

Context {A : Type}.

(** [gltf.nodes]. *)
Variable gltf_nodes : option (list GltfNode).

(** [loadNode(loader, gltf, gltfNode, supportedImageFormats)] builds the node
    from Scene/ModelComponents.js and ThirdParty/GltfPipeline/ForEach.js,
    which are collaborators; [gltfNode] is undefined when the id names no
    node. *)
Variable loadNode : option GltfNode -> Eff GltfLoader.t A.

(** The body of the [for] loop of [loadNodes], from index [i] on: [ids] are
    the ids not yet visited, [nodes] is the array so far, [loadNodes_] the
    recursive call. *)
Fixpoint loadNodes_loop
  (loadNodes_ : list nat -> Eff GltfLoader.t (list (option (Node A))))
  (ids : list nat) (nodes : list (option (Node A)))
  : Eff GltfLoader.t (list (option (Node A))) :=
  match ids with
  | [] => ret nodes
  | gltfNodeId :: rest =>
      do gltfNode <- lift (element "nodes" gltf_nodes (Some gltfNodeId));
      do node <- loadNode gltfNode;
      do gltf_children <- lift (property "children" gltfNode children);
      do node_children <-
        match gltf_children with
        | Some childIds =>
            do loaded <- loadNodes_ childIds;
            ret (Some loaded)
        | None => ret None
        end;
      (* nodes.push(node), the node being the object whose children were
         assigned *)
      loadNodes_loop loadNodes_ rest
        (nodes ++ [Some (mkNode node node_children)])
  end.

(** [loadNodes]: [new Array(length)] is an array of [length] holes, and the
    loop pushes after them.  [stack] is the depth of call stack left. *)
Fixpoint loadNodes (stack : nat) (gltfNodeIds : list nat)
  : Eff GltfLoader.t (list (option (Node A))) :=
  match stack with
  | 0 => throw stack_overflow
  | S stack' =>
      loadNodes_loop (loadNodes stack') gltfNodeIds
        (replicate (length gltfNodeIds) None)
  end.

End Nodes.

End GltfNodes.

(** Every id in [ids] names a node of a group [on_cycle] each member of which
    has a child in the group: the ids lead into a cycle of the hierarchy. *)
Definition leads_into_cycle (gltf_nodes : option (list GltfNodes.GltfNode))
  (on_cycle : nat -> Prop) : Prop :=
  forall id, on_cycle id ->
    exists nodes gltfNode childIds child,
      gltf_nodes = Some nodes /\
      nodes !! id = Some gltfNode /\
      GltfNodes.children gltfNode = Some childIds /\
      In child childIds /\ on_cycle child.

(** ** More concrete inputs *)

Module Example2.

(** A version 2.0 document with a buffer given as a data URI and an external
    buffer; every file parses to it. *)
Definition embedded_gltf : Gltf.t :=
  Gltf.mk "2.0"
    [Gltf.mkBuffer (Some "data:application/octet-stream;base64,iVBORw0KGgo=")
       None;
     Gltf.mkBuffer (Some "geometry.bin") None]
    None None.

Definition parse (_ : list byte) : Completion Gltf.t := Normal embedded_gltf.
Definition isDataUri (uri : string) : bool := String.prefix "data:" uri.

(** A file that does not parse, and an upgrade that fails. *)
Definition syntax_error : JsError := External "Unexpected token < in JSON".
Definition parse_fails (_ : list byte) : Completion Gltf.t :=
  Throw syntax_error.
Definition unsupported : JsError := RuntimeError "Unsupported glTF version".
Definition updateVersion_fails (_ : Gltf.t) : Completion Gltf.t :=
  Throw unsupported.

(** A JSON loader that keeps its buffers resident, after [load]. *)
Definition loading : GltfJsonLoader.t :=
  final (GltfJsonLoader.load
           (GltfJsonLoader.new Example.cache Example.gltfResource
              Example.baseResource true)).

(** A document whose accessor 0 reads buffer view 0. *)
Definition strided_view : Gltf.BufferView :=
  Gltf.mkBufferView 0 0 36 (Some 12).

Definition position_accessor : Gltf.Accessor :=
  Gltf.mkAccessor (Some 0) (Some 0) 5126%N None 3 "VEC3".

Definition attribute_gltf : Gltf.t :=
  Gltf.mk "2.0" [] (Some [strided_view]) (Some [position_accessor]).

(** A root with a mesh and one child, and a node that is its own child. *)
Definition tree_nodes : option (list GltfNodes.GltfNode) :=
  Some [GltfNodes.mkGltfNode (Some 0) (Some [1]);
        GltfNodes.mkGltfNode None None].

Definition cyclic_nodes : option (list GltfNodes.GltfNode) :=
  Some [GltfNodes.mkGltfNode None (Some [0])].

(** A [loadNode] that keeps the id of the mesh. *)
Definition loadNode (gltfNode : option GltfNodes.GltfNode)
  : Eff GltfLoader.t (option nat) :=
  lift (property "mesh" gltfNode GltfNodes.mesh).

End Example2.

(** * Properties *)

(** ** Typed arrays and signatures *)

Lemma index_is_true (bs : list byte) (i : nat) (x : byte) :
  index_is bs i x = true <-> bs !! i = Some x.
Proof.
  unfold index_is. destruct (bs !! i) as [y|]; split; intros H; try discriminate.
  - f_equal. now apply byte_dec_bl.
  - injection H as ->. now apply byte_dec_lb.
Qed.

Lemma index_is_subarray (bs : list byte) (b e i : nat) (x : byte) :
  i < e - b ->
  index_is (subarray bs b e) i x = index_is bs (b + i) x.
Proof.
  intros Hi. unfold index_is, subarray.
  rewrite lookup_take_lt by exact Hi. now rewrite lookup_drop.
Qed.

Lemma matches_at_spec (sig bs : list byte) (offset : nat) :
  matches_at bs offset sig = true <-> has_signature sig offset bs.
Proof.
  unfold has_signature. revert bs offset.
  induction sig as [|x sig IH]; intros bs offset; simpl.
  - now rewrite take_0.
  - rewrite andb_true_iff, index_is_true, IH.
    destruct (bs !! offset) as [y|] eqn:E.
    + rewrite (drop_S _ _ _ E). simpl. split.
      * intros [[= ->] ->]. reflexivity.
      * intros [= -> H]. split; [reflexivity | exact H].
    + rewrite (drop_ge bs offset) by (apply lookup_ge_None; exact E). simpl.
      split; [intros [? _]; discriminate | discriminate].
Qed.

(** The code's cascade of comparisons, signature by signature. *)
Lemma getMimeTypeFromTypedArray_cascade (bs : list byte) :
  getMimeTypeFromTypedArray bs =
  if matches_at bs 0 [x42; x49] then Normal "image/bmp"
  else if matches_at bs 0 [x47; x49] then Normal "image/gif"
  else if matches_at bs 0 [xff; xd8] then Normal "image/jpeg"
  else if matches_at bs 0 [x89; x50] then Normal "image/png"
  else if matches_at bs 0 [xab; x4b] then Normal "image/ktx"
  else if matches_at bs 0 [x48; x78] then Normal "image/crn"
  else if matches_at bs 0 [x73; x42] then Normal "image/basis"
  else if matches_at bs 0 RIFF && matches_at bs 8 WEBP then Normal "image/webp"
  else Throw invalid_header.
Proof.
  unfold getMimeTypeFromTypedArray, RIFF, WEBP, matches_at.
  rewrite !index_is_subarray by (simpl; lia). simpl.
  rewrite !andb_true_r, <- !andb_assoc. reflexivity.
Qed.

Lemma two_byte_signature_found (bs sig : list byte) (mime : string) :
  In (sig, mime) two_byte_signatures ->
  has_signature sig 0 bs ->
  getMimeTypeFromTypedArray bs = Normal mime.
Proof.
  intros Hin Hsig. unfold has_signature in Hsig.
  simpl in Hin.
  repeat (destruct Hin as [[= <- <-] | Hin];
          [ destruct bs as [|a [|b rest]]; simpl in Hsig; try discriminate;
            injection Hsig as -> ->; reflexivity | ]).
  contradiction.
Qed.

Lemma webp_found (bs : list byte) :
  getMimeTypeFromTypedArray bs = Normal "image/webp" <-> is_webp bs.
Proof.
  unfold is_webp. rewrite <- !matches_at_spec, <- andb_true_iff.
  rewrite getMimeTypeFromTypedArray_cascade. split.
  - repeat match goal with
           | |- context [if ?c then _ else _] =>
               destruct c eqn:?; try discriminate
           end.
    reflexivity.
  - intros H. pose proof H as H'.
    apply andb_true_iff in H' as [Hriff _].
    apply matches_at_spec in Hriff. unfold has_signature in Hriff.
    destruct bs as [|a [|b [|c [|d rest]]]]; simpl in Hriff; try discriminate.
    injection Hriff as -> -> -> ->.
    rewrite H. reflexivity.
Qed.

Lemma no_signature_found (bs : list byte) :
  (forall sig mime, In (sig, mime) two_byte_signatures ->
                    ~ has_signature sig 0 bs) ->
  ~ is_webp bs ->
  getMimeTypeFromTypedArray bs = Throw invalid_header.
Proof.
  intros Hnone Hwebp. rewrite getMimeTypeFromTypedArray_cascade.
  repeat match goal with
         | |- context [if matches_at bs 0 ?sig then Normal ?m else _] =>
             destruct (matches_at bs 0 sig) eqn:E;
             [ exfalso; apply (Hnone sig m); [simpl; tauto |];
               apply matches_at_spec; exact E | clear E ]
         end.
  destruct (matches_at bs 0 RIFF && matches_at bs 8 WEBP) eqn:E;
    [| reflexivity].
  exfalso. apply Hwebp. apply andb_true_iff in E as [E1 E2].
  split; apply matches_at_spec; assumption.
Qed.

(** ** The monad *)

Lemma andThen_result {S A B : Type} (o : Outcome S A) (m : Eff S B) :
  result (andThen o m) = result (m (final o)).
Proof. unfold andThen. now destruct (m (final o)). Qed.

Lemma andThen_final {S A B : Type} (o : Outcome S A) (m : Eff S B) :
  final (andThen o m) = final (m (final o)).
Proof. unfold andThen. now destruct (m (final o)). Qed.

Lemma andThen_trace {S A B : Type} (o : Outcome S A) (m : Eff S B) :
  trace (andThen o m) = trace o ++ trace (m (final o)).
Proof. unfold andThen. now destruct (m (final o)). Qed.

Lemma bind_normal {S A B : Type} (m : Eff S A) (f : A -> Eff S B)
  (l l' : S) (a : A) (t : Trace) :
  m l = mkOutcome (Normal a) l' t ->
  bind m f l =
  mkOutcome (result (f a l')) (final (f a l')) (t ++ trace (f a l')).
Proof. intros H. unfold bind. rewrite H. now destruct (f a l'). Qed.

Lemma bind_throw {S A B : Type} (m : Eff S A) (f : A -> Eff S B)
  (l l' : S) (e : JsError) (t : Trace) :
  m l = mkOutcome (Throw e) l' t ->
  bind m f l = mkOutcome (Throw e) l' t.
Proof. intros H. unfold bind. now rewrite H. Qed.

Lemma void_final {S A : Type} (m : Eff S A) (l : S) :
  final (void m l) = final (m l).
Proof. unfold void, bind. now destruct (m l) as [[a|e] s t]. Qed.

Lemma void_trace {S A : Type} (m : Eff S A) (l : S) :
  trace (void m l) = trace (m l).
Proof.
  unfold void, bind. destruct (m l) as [[a|e] s t]; simpl;
    rewrite ?app_nil_r; reflexivity.
Qed.

Lemma forEach_unload (hs : list Handle) (l : GltfJsonLoader.t) :
  GltfJsonLoader.forEach hs (fun h => emit (CacheUnload h)) l =
  mkOutcome (Normal tt) l (map CacheUnload hs).
Proof.
  induction hs as [|h hs IH]; simpl; [reflexivity |].
  unfold bind. simpl. rewrite IH. reflexivity.
Qed.

Lemma json_unload_run (l : GltfJsonLoader.t) :
  GltfJsonLoader.unload l =
  mkOutcome (Normal tt)
    (GltfJsonLoader.set_gltf None (GltfJsonLoader.set_bufferLoader (Some []) l))
    (map CacheUnload (GltfJsonLoader._bufferLoaders l)).
Proof.
  unfold GltfJsonLoader.unload, bind. simpl.
  rewrite forEach_unload. simpl. now rewrite !app_nil_r.
Qed.

(** ** Failure *)

(** C4.  In every loader the failure handler first releases each child
    cache reference the loader holds, then writes FAILED, then rejects the
    loader's promise with the error annotated with the loader's context
    message; the annotated error keeps the underlying cause. *)
Theorem failure_unloads_then_fails_then_rejects :
  fails_after_unload
    (fun l => option_list (GltfBufferViewLoader._bufferLoader l))
    GltfBufferViewLoader._state GltfBufferViewLoader._promise
    (fun _ => "Failed to load buffer view")
    GltfBufferViewLoader.bufferLoader_rejected /\
  fails_after_unload
    (fun l => option_list (GltfImageLoader._bufferViewLoader l))
    GltfImageLoader._state GltfImageLoader._promise
    (fun _ => "Failed to load embedded image")
    GltfImageLoader.bufferViewLoader_rejected /\
  (forall uri : string,
     fails_after_unload
       (fun l => option_list (GltfImageLoader._bufferViewLoader l))
       GltfImageLoader._state GltfImageLoader._promise
       (fun _ => ("Failed to load image:" ++ uri)%string)
       (GltfImageLoader.fetch_rejected uri)) /\
  fails_after_unload
    GltfJsonLoader._bufferLoaders
    GltfJsonLoader._state GltfJsonLoader._promise
    (fun l => ("Failed to load glTF: " ++
                 Resource_url (GltfJsonLoader._gltfResource l))%string)
    GltfJsonLoader.fetch_rejected /\
  fails_after_unload
    (fun l => option_list (GltfDracoLoader._bufferViewLoader l))
    GltfDracoLoader._state GltfDracoLoader._promise
    (fun _ => "Failed to load Draco")
    GltfDracoLoader.bufferViewLoader_rejected /\
  fails_after_unload
    (fun l => option_list (GltfDracoLoader._bufferViewLoader l))
    GltfDracoLoader._state GltfDracoLoader._promise
    (fun _ => "Failed to load Draco")
    GltfDracoLoader.decode_rejected.
Proof.
  unfold fails_after_unload. repeat apply conj.
  4: { intros l error. lazy zeta.
       unfold GltfJsonLoader.fetch_rejected, GltfJsonLoader.load_otherwise, bind.
       rewrite json_unload_run. destruct l as []; simpl.
       rewrite ?app_nil_r. repeat split; reflexivity. }
  all: intros; lazy zeta; destruct l as []; simpl;
       match goal with
       | |- context [option_list ?h] => destruct h
       end; repeat split; reflexivity.
Qed.

(** ** The loops of the JSON loader *)

Lemma upgradeVersion_buffers_run (buffers : list Gltf.Buffer) (bufferId : nat)
  (l : GltfJsonLoader.t) :
  let cache := GltfJsonLoader._resourceCache l in
  let requests :=
    map (external_request (GltfJsonLoader._baseResource l))
        (external_buffers buffers bufferId) in
  GltfJsonLoader.upgradeVersion_buffers buffers bufferId l =
  mkOutcome
    (Normal (map (fun b => (fst b,
                            cache (external_request
                                     (GltfJsonLoader._baseResource l) b)))
                 (external_buffers buffers bufferId)))
    (GltfJsonLoader.set_bufferLoaders
       (GltfJsonLoader._bufferLoaders l ++ map cache requests) l)
    (map (asked cache) requests).
Proof.
  revert bufferId l.
  induction buffers as [|buffer rest IH]; intros bufferId l; lazy zeta.
  - destruct l as []; simpl. now rewrite app_nil_r.
  - cbn [GltfJsonLoader.upgradeVersion_buffers external_buffers].
    destruct (Gltf.source buffer) as [src|], (Gltf.uri buffer) as [uri|];
      unfold bind; simpl; rewrite IH; destruct l as []; simpl;
      rewrite ?app_nil_r, <- ?app_assoc; reflexivity.
Qed.

Lemma loadEmbeddedBuffers_buffers_run (buffers : list Gltf.Buffer)
  (bufferId : nat) (l : GltfJsonLoader.t) :
  let cache := GltfJsonLoader._resourceCache l in
  let requests :=
    map (embedded_request (GltfJsonLoader._gltfResource l)
           (GltfJsonLoader._keepResident l))
        (embedded_buffers buffers bufferId) in
  GltfJsonLoader.loadEmbeddedBuffers_buffers buffers bufferId l =
  mkOutcome
    (Normal (map cache requests))
    (GltfJsonLoader.set_bufferLoaders
       (GltfJsonLoader._bufferLoaders l ++ map cache requests) l)
    (map (asked cache) requests).
Proof.
  revert bufferId l.
  induction buffers as [|buffer rest IH]; intros bufferId l; lazy zeta.
  - destruct l as []; simpl. now rewrite app_nil_r.
  - cbn [GltfJsonLoader.loadEmbeddedBuffers_buffers embedded_buffers].
    destruct (Gltf.source buffer) as [src|], (Gltf.uri buffer) as [uri|];
      unfold bind; simpl; rewrite IH; destruct l as []; simpl;
      rewrite ?app_nil_r, <- ?app_assoc; reflexivity.
Qed.

Lemma upgradeVersion_run (gltf : Gltf.t) (l : GltfJsonLoader.t) :
  let cache := GltfJsonLoader._resourceCache l in
  let external := external_buffers (Gltf.buffers gltf) 0 in
  let requests :=
    map (external_request (GltfJsonLoader._baseResource l)) external in
  GltfJsonLoader.upgradeVersion gltf l =
  if String.eqb (Gltf.asset_version gltf) "2.0"
  then mkOutcome (Normal None) l []
  else
    mkOutcome
      (Normal (Some (map (fun b => (fst b,
                            cache (external_request
                                     (GltfJsonLoader._baseResource l) b)))
                       external)))
      (GltfJsonLoader.set_bufferLoaders
         (GltfJsonLoader._bufferLoaders l ++ map cache requests) l)
      (map (asked cache) requests).
Proof.
  lazy zeta. unfold GltfJsonLoader.upgradeVersion.
  destruct (String.eqb _ "2.0"); [reflexivity |].
  unfold bind. rewrite upgradeVersion_buffers_run. simpl.
  now rewrite app_nil_r.
Qed.

Lemma loadEmbeddedBuffers_run (gltf : Gltf.t) (l : GltfJsonLoader.t) :
  let cache := GltfJsonLoader._resourceCache l in
  let requests :=
    map (embedded_request (GltfJsonLoader._gltfResource l)
           (GltfJsonLoader._keepResident l))
        (embedded_buffers (Gltf.buffers gltf) 0) in
  GltfJsonLoader.loadEmbeddedBuffers gltf l =
  mkOutcome
    (Normal (map cache requests))
    (GltfJsonLoader.set_bufferLoaders
       (GltfJsonLoader._bufferLoaders l ++ map cache requests) l)
    (map (asked cache) requests).
Proof. apply loadEmbeddedBuffers_buffers_run. Qed.

(** ** Destruction while a promise is pending *)

















(** ** Buffer views *)

Lemma new_Uint8Array_inside (mem : Memory) (parent : Uint8Array) (o L : nat) :
  valid_view mem parent ->
  o + L <= byteLength parent ->
  new_Uint8Array mem (buffer parent) (byteOffset parent + o) L =
  Normal (mkUint8Array (buffer parent) (byteOffset parent + o) L).
Proof.
  unfold valid_view, new_Uint8Array. intros Hvalid Hfit.
  destruct (Nat.leb_spec (byteOffset parent + o + L)
              (length (buffer_bytes mem (buffer parent)))) as [_ | Hlt];
    [reflexivity | lia].
Qed.

Lemma elements_subview (mem : Memory) (parent : Uint8Array) (o L : nat) :
  o + L <= byteLength parent ->
  elements mem (mkUint8Array (buffer parent) (byteOffset parent + o) L) =
  take L (drop o (elements mem parent)).
Proof.
  intros Hfit. unfold elements. cbn [buffer byteOffset byteLength].
  rewrite (take_drop_commute (take _ _) L o), take_take.
  rewrite Nat.min_l by lia.
  rewrite <- take_drop_commute, drop_drop. reflexivity.
Qed.

Lemma elements_length (mem : Memory) (a : Uint8Array) :
  valid_view mem a -> length (elements mem a) = byteLength a.
Proof.
  unfold valid_view, elements. intros H.
  rewrite length_take, length_drop. lia.
Qed.

(** C2.  A buffer view loader made for byteOffset [o] and byteLength [L],
    loaded, whose parent buffer arrives as a typed array of at least [o + L]
    bytes, becomes READY holding a typed array over the parent's own array
    buffer whose elements are bytes [o, o+L) of the parent, whatever the
    shared memory holds; up to READY no cache reference was released and the
    parent's loader is still held; [unload], and only it, releases that
    reference, once. *)
Theorem bufferView_is_slice_of_parent
  (cache : ResourceCache) (gltfResource baseResource : Resource)
  (uri : option string) (bufferId o L : nat)
  (mem : Memory) (parent : Uint8Array) :
  valid_view mem parent ->
  o + L <= byteLength parent ->
  let loading :=
    GltfBufferViewLoader.load
      (GltfBufferViewLoader.new cache gltfResource baseResource uri bufferId
         o L) in
  let ready :=
    andThen loading (GltfBufferViewLoader.bufferLoader_fulfilled mem parent) in
  GltfBufferViewLoader._state (final ready) = READY /\
  GltfBufferViewLoader._promise (final ready) = Resolved /\
  (exists view,
     GltfBufferViewLoader._typedArray (final ready) = Some view /\
     buffer view = buffer parent /\
     length (elements mem view) = L /\
     forall mem' : Memory,
       elements mem' view = take L (drop o (elements mem' parent))) /\
  (exists request bufferLoader,
     trace loading = [CacheLoad request bufferLoader; SetState LOADING] /\
     GltfBufferViewLoader._bufferLoader (final ready) = Some bufferLoader /\
     unloads (trace ready) = [] /\
     unloads (trace (GltfBufferViewLoader.unload (final ready))) =
       [bufferLoader] /\
     GltfBufferViewLoader._bufferLoader
       (final (GltfBufferViewLoader.unload (final ready))) = None).
Proof.
  intros Hvalid Hfit loading ready. subst loading ready.
  unfold GltfBufferViewLoader.bufferLoader_fulfilled, otherwise,
    GltfBufferViewLoader.load_then, andThen.
  destruct uri as [u|]; cbn -[new_Uint8Array elements];
    rewrite (new_Uint8Array_inside mem parent o L Hvalid Hfit);
    cbn -[elements];
    (repeat split;
     [ eexists; repeat split;
       [ rewrite elements_length;
         [ reflexivity | unfold valid_view in *; simpl; lia ]
       | intros mem'; apply elements_subview; exact Hfit ]
     | eexists _, _; repeat split ]).
Qed.

(** Bytes 4 to 11 of the sixteen bytes of [Example.memory]. *)
Lemma bufferView_is_slice_of_parent_witness :
  let ready :=
    andThen (GltfBufferViewLoader.load Example.bufferViewLoader)
      (GltfBufferViewLoader.bufferLoader_fulfilled Example.memory
         Example.parent) in
  GltfBufferViewLoader._state (final ready) = READY /\
  GltfBufferViewLoader._promise (final ready) = Resolved /\
  (exists view,
     GltfBufferViewLoader._typedArray (final ready) = Some view /\
     buffer view = 0 /\
     length (elements Example.memory view) = 8 /\
     forall mem' : Memory,
       elements mem' view = take 8 (drop 4 (elements mem' Example.parent))) /\
  (exists request bufferLoader,
     trace (GltfBufferViewLoader.load Example.bufferViewLoader) =
       [CacheLoad request bufferLoader; SetState LOADING] /\
     GltfBufferViewLoader._bufferLoader (final ready) = Some bufferLoader /\
     unloads (trace ready) = [] /\
     unloads (trace (GltfBufferViewLoader.unload (final ready))) =
       [bufferLoader] /\
     GltfBufferViewLoader._bufferLoader
       (final (GltfBufferViewLoader.unload (final ready))) = None).
Proof.
  apply (bufferView_is_slice_of_parent Example.cache Example.gltfResource
           Example.baseResource (Some "geometry.bin") 0 4 8
           Example.memory Example.parent).
  - unfold valid_view. vm_compute. lia.
  - vm_compute. lia.
Defined.

(** ** Image signatures *)

(** C3.  A buffer that starts with one of the seven two-byte signatures is
    given that signature's MIME type; it is given image/webp exactly when
    bytes 0-3 are RIFF and bytes 8-11 are WEBP; with none of the signatures
    the sniffing throws the invalid-header error.  The image loader hands
    the typed array to the decoder of the MIME type found, and when the
    sniffing throws no decoder is called: the loader fails, rejecting with
    the invalid-header error as cause. *)
Theorem image_magic_byte_dispatch (bs : list byte) :
  (forall sig mime,
     In (sig, mime) two_byte_signatures ->
     has_signature sig 0 bs ->
     getMimeTypeFromTypedArray bs = Normal mime) /\
  (getMimeTypeFromTypedArray bs = Normal "image/webp" <-> is_webp bs) /\
  ((forall sig mime,
      In (sig, mime) two_byte_signatures -> ~ has_signature sig 0 bs) ->
   ~ is_webp bs ->
   getMimeTypeFromTypedArray bs = Throw invalid_header) /\
  (forall (mem : Memory) (typedArray : Uint8Array),
     elements mem typedArray = bs ->
     loadImageFromBufferTypedArray mem typedArray =
       match getMimeTypeFromTypedArray bs with
       | Normal mimeType => Normal (decode_path mimeType typedArray)
       | Throw e => Throw e
       end /\
     forall l : GltfImageLoader.t,
       GltfImageLoader._state l <> DESTROYED ->
       getMimeTypeFromTypedArray bs = Throw invalid_header ->
       let o := GltfImageLoader.bufferViewLoader_fulfilled mem typedArray l in
       let annotated :=
         getError invalid_header "Failed to load embedded image" in
       result o = Normal None /\
       GltfImageLoader._state (final o) = FAILED /\
       GltfImageLoader._promise (final o) =
         settle (GltfImageLoader._promise l) (Rejected annotated) /\
       last (trace o) = Some (PromiseReject annotated)).
Proof.
  split; [exact (two_byte_signature_found bs) |].
  split; [exact (webp_found bs) |].
  split; [exact (no_signature_found bs) |].
  intros mem typedArray Hbs. split.
  - unfold loadImageFromBufferTypedArray, decode_path. rewrite Hbs.
    destruct (getMimeTypeFromTypedArray bs) as [mimeType | e];
      [| reflexivity].
    destruct (String.eqb mimeType "image/ktx"); [reflexivity |].
    destruct (String.eqb mimeType "image/crn"); reflexivity.
  - intros l Hl Hthrow. lazy zeta.
    unfold GltfImageLoader.bufferViewLoader_fulfilled,
      GltfImageLoader.loadFromBufferView_then, loadImageFromBufferTypedArray.
    rewrite Hbs, Hthrow.
    destruct l as [? ? ? ? ? ? child ? st ? ?]. simpl in Hl.
    destruct st; try contradiction; destruct child; repeat split; reflexivity.
Qed.

(** The PNG header of [Example.png_bytes], and a buffer of zeros. *)
Lemma image_magic_byte_dispatch_witness :
  getMimeTypeFromTypedArray Example.png_bytes = Normal "image/png" /\
  getMimeTypeFromTypedArray [x00; x00; x00; x00] = Throw invalid_header.
Proof.
  split.
  - apply (proj1 (image_magic_byte_dispatch Example.png_bytes)
             [x89; x50] "image/png").
    + simpl. tauto.
    + reflexivity.
  - apply (proj1 (proj2 (proj2 (image_magic_byte_dispatch
                                  [x00; x00; x00; x00])))).
    + intros sig mime Hin Hsig. simpl in Hin.
      repeat (destruct Hin as [[= <- <-] | Hin]; [discriminate Hsig |]).
      contradiction.
    + intros [Hriff _]. discriminate Hriff.
Defined.

(** ** Failure after destruction *)

(** C5 fails on the code: the [otherwise] callbacks do not test for
    DESTROYED.  Each of the four loaders, loaded, then destroyed while its
    dependency is pending, is DESTROYED with a pending promise; when the
    dependency then fails, the loader becomes FAILED and its promise is
    rejected. *)
Lemma failure_after_destroy_is_not_swallowed :
  let error := Example.fetch_failed in
  (let destroyed :=
     final (andThen (GltfBufferViewLoader.load Example.bufferViewLoader)
              GltfBufferViewLoader.destroy) in
   let failed :=
     final (GltfBufferViewLoader.bufferLoader_rejected error destroyed) in
   GltfBufferViewLoader._state destroyed = DESTROYED /\
   GltfBufferViewLoader._promise destroyed = Pending /\
   GltfBufferViewLoader._state failed = FAILED /\
   GltfBufferViewLoader._promise failed =
     Rejected (getError error "Failed to load buffer view")) /\
  (let destroyed :=
     final (andThen (GltfImageLoader.load Example.imageLoader)
              GltfImageLoader.destroy) in
   let failed :=
     final (GltfImageLoader.bufferViewLoader_rejected error destroyed) in
   GltfImageLoader._state destroyed = DESTROYED /\
   GltfImageLoader._promise destroyed = Pending /\
   GltfImageLoader._state failed = FAILED /\
   GltfImageLoader._promise failed =
     Rejected (getError error "Failed to load embedded image")) /\
  (let destroyed :=
     final (andThen (GltfJsonLoader.load Example.jsonLoader)
              GltfJsonLoader.destroy) in
   let failed := final (GltfJsonLoader.fetch_rejected error destroyed) in
   GltfJsonLoader._state destroyed = DESTROYED /\
   GltfJsonLoader._promise destroyed = Pending /\
   GltfJsonLoader._state failed = FAILED /\
   GltfJsonLoader._promise failed =
     Rejected (getError error "Failed to load glTF: model.gltf")) /\
  (let destroyed :=
     final (andThen (GltfDracoLoader.load Example.dracoLoader)
              GltfDracoLoader.destroy) in
   let failed :=
     final (GltfDracoLoader.bufferViewLoader_rejected error destroyed) in
   GltfDracoLoader._state destroyed = DESTROYED /\
   GltfDracoLoader._promise destroyed = Pending /\
   GltfDracoLoader._state failed = FAILED /\
   GltfDracoLoader._promise failed =
     Rejected (getError error "Failed to load Draco")).
Proof. lazy zeta. repeat split; reflexivity. Qed.

(** ** Releasing child references *)

(** In the buffer view, image and Draco loaders [unload] clears the child
    handle it released: a second [unload] releases nothing. *)
Lemma unload_twice_releases_once :
  (forall l,
     unloads (trace (GltfBufferViewLoader.unload
                       (final (GltfBufferViewLoader.unload l)))) = []) /\
  (forall l,
     unloads (trace (GltfImageLoader.unload
                       (final (GltfImageLoader.unload l)))) = []) /\
  (forall l,
     unloads (trace (GltfDracoLoader.unload
                       (final (GltfDracoLoader.unload l)))) = []).
Proof.
  repeat apply conj.
  - intros [? ? ? ? ? ? ? child ? ? ? ?]. destruct child; reflexivity.
  - intros [? ? ? ? ? ? child ? ? ? ?]. destruct child; reflexivity.
  - intros [? ? ? ? ? child ? ? ? ? ? ?]. destruct child; reflexivity.
Qed.

(** C10 fails on the code for the JSON loader: [unload] assigns the empty
    array to [_bufferLoader], not to [_bufferLoaders].  A version 1.0
    document with one external buffer is fetched, the buffer is requested
    from the cache once, the buffer fails to load, and the loader is then
    destroyed: the one reference is released twice. *)
Lemma json_unload_releases_twice :
  let fetched :=
    andThen (GltfJsonLoader.load Example.jsonLoader)
      (GltfJsonLoader.load_then_fetch Example.parse Example.isDataUri []) in
  let upgrading :=
    andThen fetched
      (GltfJsonLoader.processGltf_then_decodeDataUris Example.legacy_gltf []) in
  let failed :=
    andThen upgrading (GltfJsonLoader.fetch_rejected Example.fetch_failed) in
  let destroyed := andThen failed GltfJsonLoader.call_destroy in
  filter (fun e => bool_decide (is_cache_load e = true)) (trace destroyed) =
    [CacheLoad
       (loadExternalBuffer
          (getDerivedResource Example.baseResource "geometry.bin") false) 1] /\
  GltfJsonLoader._state (final failed) = FAILED /\
  GltfJsonLoader._bufferLoaders (final failed) = [1] /\
  GltfJsonLoader._bufferLoader (final failed) = Some [] /\
  unloads (trace failed) = [1] /\
  unloads (trace destroyed) = [1; 1].
Proof. lazy zeta. repeat split; reflexivity. Qed.

(** ** Draco decoding *)



(** ** Upgrading a legacy document *)

Lemma unloads_app (t1 t2 : Trace) :
  unloads (t1 ++ t2) = unloads t1 ++ unloads t2.
Proof.
  induction t1 as [|[] t1 IH]; simpl; rewrite ?IH; reflexivity.
Qed.

Lemma unloads_asked (cache : ResourceCache) (rs : list CacheRequest) :
  unloads (map (asked cache) rs) = [].
Proof. induction rs as [|r rs IH]; [reflexivity | exact IH]. Qed.

Lemma unloads_unload (hs : list Handle) : unloads (map CacheUnload hs) = hs.
Proof. induction hs as [|h hs IH]; simpl; [| rewrite IH]; reflexivity. Qed.

Lemma external_requests_not_resident (base : Resource)
  (buffers : list (nat * string)) :
  Forall (fun r => exists resource, r = loadExternalBuffer resource false)
    (map (external_request base) buffers).
Proof.
  apply Forall_map, Forall_forall. intros b _. now eexists.
Qed.

(** C7 as stated fails on the code: nothing releases the external buffers
    when the upgrade is done.  The version 1.0 document of [Example], with
    one external buffer, loads to READY: the buffer was requested with
    keepResident false, no reference has been released, the buffer's loader
    is still in [_bufferLoaders], and it is [destroy] that releases it. *)
Lemma json_upgrade_keeps_external_buffer :
  let ready :=
    andThen (GltfJsonLoader.load Example.jsonLoader)
      (GltfJsonLoader.fetch_fulfilled Example.parse Example.isDataUri
         Example.updateVersion Example.addDefaults
         Example.removePipelineExtras [] [] [(0, Example.parent)]) in
  trace ready =
    [SetState LOADING;
     CacheLoad
       (loadExternalBuffer
          (getDerivedResource Example.baseResource "geometry.bin") false) 1;
     SetState READY; PromiseResolve] /\
  GltfJsonLoader._state (final ready) = READY /\
  GltfJsonLoader._bufferLoaders (final ready) = [1] /\
  unloads (trace ready) = [] /\
  unloads (trace (GltfJsonLoader.destroy (final ready))) = [1].
Proof. lazy zeta. repeat split; reflexivity. Qed.

(** C7, amended.  When the JSON loader upgrades a document whose version is
    not 2.0, every external buffer the upgrade needs is requested from the
    cache with keepResident false and its loader is appended to
    [_bufferLoaders]; when the load has gone on to READY none of these
    references has been released and all are still in [_bufferLoaders];
    [unload] releases them. *)
Theorem json_upgrade_holds_external_buffers
  (parse : list byte -> Completion Gltf.t) (isDataUri : string -> bool)
  (updateVersion : Gltf.t -> Completion Gltf.t)
  (addDefaults removePipelineExtras : Gltf.t -> Gltf.t)
  (l : GltfJsonLoader.t) (arrayBuffer : list byte)
  (decoded external : list (nat * Uint8Array)) (gltf upgraded : Gltf.t) :
  let document :=
    GltfJsonLoader.store_sources decoded
      (fst (GltfJsonLoader.decodeDataUris isDataUri gltf)) in
  let cache := GltfJsonLoader._resourceCache l in
  let requests :=
    map (external_request (GltfJsonLoader._baseResource l))
        (external_buffers (Gltf.buffers document) 0) in
  GltfJsonLoader._state l <> DESTROYED ->
  parse arrayBuffer = Normal gltf ->
  String.eqb (Gltf.asset_version document) "2.0" = false ->
  updateVersion (GltfJsonLoader.store_sources external document) =
    Normal upgraded ->
  let o :=
    GltfJsonLoader.fetch_to_ready parse isDataUri updateVersion addDefaults
      removePipelineExtras arrayBuffer decoded external l in
  result o = Normal tt /\
  GltfJsonLoader._state (final o) = READY /\
  Forall (fun r => exists resource, r = loadExternalBuffer resource false)
    requests /\
  (exists later, trace o = map (asked cache) requests ++ later) /\
  unloads (trace o) = [] /\
  (exists embedded,
     GltfJsonLoader._bufferLoaders (final o) =
       GltfJsonLoader._bufferLoaders l ++ map cache requests ++ embedded) /\
  unloads (trace (GltfJsonLoader.unload (final o))) =
    GltfJsonLoader._bufferLoaders (final o).
Proof.
  intros document cache requests Hstate Hparse Hversion Hupgrade o.
  assert (Ho : exists embedded,
             o = mkOutcome (Normal tt)
                   (GltfJsonLoader.set_promise
                      (settle (GltfJsonLoader._promise l) Resolved)
                      (GltfJsonLoader.set_state READY
                         (GltfJsonLoader.set_gltf
                            (Some (removePipelineExtras
                                     (addDefaults upgraded)))
                            (GltfJsonLoader.set_bufferLoaders
                               (GltfJsonLoader._bufferLoaders l ++
                                map cache requests ++ map cache embedded)
                               l))))
                   (map (asked cache) requests ++
                    map (asked cache) embedded ++
                    [SetState READY; PromiseResolve])).
  { subst o. unfold GltfJsonLoader.fetch_to_ready.
    assert (Hnot : state_eqb (GltfJsonLoader._state l) DESTROYED = false)
      by (destruct (GltfJsonLoader._state l); try reflexivity; contradiction).
    erewrite bind_normal; cycle 1.
    { unfold GltfJsonLoader.load_then_fetch, GltfJsonLoader.processGltf,
        bind, lift. cbn [get result final trace]. rewrite Hnot, Hparse.
      reflexivity. }
    destruct (GltfJsonLoader.decodeDataUris isDataUri gltf) as [g0 uris] eqn:Eg.
    cbn [fst] in *.
    erewrite bind_normal; cycle 1.
    { unfold GltfJsonLoader.processGltf_then_decodeDataUris.
      erewrite bind_normal; cycle 1.
      { rewrite upgradeVersion_run. fold document. rewrite Hversion.
        reflexivity. }
      reflexivity. }
    cbn [result final trace ret].
    erewrite bind_normal; cycle 1.
    { unfold GltfJsonLoader.upgradeVersion_then, lift. fold document.
      rewrite Hupgrade. reflexivity. }
    erewrite bind_normal; cycle 1.
    { unfold GltfJsonLoader.processGltf_then_upgradeVersion.
      erewrite bind_normal; cycle 1.
      { rewrite loadEmbeddedBuffers_run. reflexivity. }
      reflexivity. }
    cbn [result final trace ret fst].
    erewrite bind_normal; cycle 1.
    { reflexivity. }
    exists (map (embedded_request (GltfJsonLoader._gltfResource l)
                   (GltfJsonLoader._keepResident l))
              (embedded_buffers (Gltf.buffers (addDefaults upgraded)) 0)).
    unfold GltfJsonLoader.load_then_processGltf, bind.
    destruct l as [? ? ? ? ? ? ? st ? ?]. cbn in Hnot |- *.
    rewrite Hnot. cbn. rewrite ?app_nil_r, <- ?app_assoc.
    reflexivity. }
  destruct Ho as [embedded Ho]. rewrite Ho. cbn [result final trace].
  split; [reflexivity |].
  split; [destruct l; reflexivity |].
  split; [apply external_requests_not_resident |].
  split; [eexists; reflexivity |].
  split; [rewrite !unloads_app, !unloads_asked; reflexivity |].
  split; [exists (map cache embedded); destruct l; reflexivity |].
  rewrite json_unload_run. cbn [trace]. apply unloads_unload.
Qed.

(** The version 1.0 document of [Example]. *)
Lemma json_upgrade_holds_external_buffers_witness :
  let o :=
    GltfJsonLoader.fetch_to_ready Example.parse Example.isDataUri
      Example.updateVersion Example.addDefaults Example.removePipelineExtras
      [] [] [(0, Example.parent)]
      (final (GltfJsonLoader.load Example.jsonLoader)) in
  GltfJsonLoader._state (final o) = READY /\
  unloads (trace o) = [] /\
  unloads (trace (GltfJsonLoader.unload (final o))) =
    GltfJsonLoader._bufferLoaders (final o).
Proof.
  lazy zeta.
  pose proof
    (json_upgrade_holds_external_buffers Example.parse Example.isDataUri
       Example.updateVersion Example.addDefaults Example.removePipelineExtras
       (final (GltfJsonLoader.load Example.jsonLoader)) [] []
       [(0, Example.parent)] Example.legacy_gltf
       (Gltf.mk "2.0" [Gltf.mkBuffer (Some "geometry.bin")
                         (Some Example.parent)] None None)
       ltac:(discriminate) eq_refl eq_refl eq_refl) as H.
  lazy zeta in H. destruct H as (_ & Hs & _ & _ & Hu & _ & Hr).
  exact (conj Hs (conj Hu Hr)).
Defined.

(** ** Accessors without a buffer view *)

(** C8 fails on the code for vertex attributes.  For an accessor without a
    buffer view, [loadVertexAttribute] throws a TypeError, with or without
    Draco data: it reads [byteStride] from the buffer view the accessor
    does not have.  Without Draco data no loader has been requested when it
    throws; [loadIndices] on the same accessor returns the indices with
    constant value 0 and no cache resource, having requested no loader. *)
Theorem loadVertexAttribute_throws_without_bufferView
  (cache : ResourceCache) (loader : GltfLoader.t) (gltf : Gltf.t)
  (accessors : list Gltf.Accessor) (accessorId : nat)
  (accessor : Gltf.Accessor) (semantic : string) :
  Gltf.accessors gltf = Some accessors ->
  accessors !! accessorId = Some accessor ->
  Gltf.bufferView accessor = None ->
  (forall draco : option Gltf.Draco,
     exists message,
       result (GltfLoader.loadVertexAttribute cache gltf accessorId semantic
                 draco loader) = Throw (TypeError message)) /\
  trace (GltfLoader.loadVertexAttribute cache gltf accessorId semantic None
           loader) = [] /\
  GltfLoader.loadIndices cache gltf accessorId None loader =
    mkOutcome
      (Normal (ModelComponents.mkIndices (Some 0)
                 (Gltf.componentType accessor) (Gltf.count accessor) None))
      loader [].
Proof.
  intros Haccessors Haccessor Hview.
  unfold GltfLoader.loadVertexAttribute, GltfLoader.loadVertexBuffer,
    GltfLoader.loadIndices, GltfLoader.loadIndexBuffer, element, property.
  destruct accessor as [view ? ? ? ? ?]. cbn in Hview. subst view.
  rewrite Haccessors. cbn. rewrite !Haccessor.
  split; [| split].
  - intros [d|]; destruct (Gltf.bufferViews gltf); eexists; reflexivity.
  - destruct (Gltf.bufferViews gltf); reflexivity.
  - reflexivity.
Qed.

(** The POSITION attribute of [Example.constant_gltf]. *)
Lemma loadVertexAttribute_throws_without_bufferView_witness :
  result (GltfLoader.loadVertexAttribute Example.cache Example.constant_gltf
            0 "POSITION" None Example.gltfLoader) =
    Throw (TypeError "Cannot read property 'byteStride' of undefined") /\
  trace (GltfLoader.loadVertexAttribute Example.cache Example.constant_gltf
           0 "POSITION" None Example.gltfLoader) = [].
Proof.
  pose proof
    (loadVertexAttribute_throws_without_bufferView Example.cache
       Example.gltfLoader Example.constant_gltf [Example.constant_accessor]
       0 Example.constant_accessor "POSITION" eq_refl eq_refl eq_refl) as H.
  split; [reflexivity | exact (proj1 (proj2 H))].
Defined.

(** ** isDestroyed *)

Lemma json_keeps_methods
  (parse : list byte -> Completion Gltf.t) (isDataUri : string -> bool)
  (updateVersion : Gltf.t -> Completion Gltf.t)
  (addDefaults removePipelineExtras : Gltf.t -> Gltf.t)
  (k : GltfJsonLoader.Continuation) :
  keeps_methods GltfJsonLoader.methods
    (GltfJsonLoader.resume parse isDataUri updateVersion addDefaults
       removePipelineExtras k).
Proof.
  intros l.
  destruct k as [bytes | gltf decoded | gltf resolved | gltf | gltf | gltf];
    cbn [GltfJsonLoader.resume]; rewrite ?void_final.
  - unfold GltfJsonLoader.load_then_fetch, GltfJsonLoader.processGltf, bind.
    cbn [get]. destruct (state_eqb _ DESTROYED).
    + rewrite json_unload_run. now destruct l.
    + unfold lift. now destruct (parse bytes).
  - unfold GltfJsonLoader.processGltf_then_decodeDataUris, bind.
    rewrite upgradeVersion_run.
    destruct (String.eqb _ "2.0"); now destruct l.
  - unfold GltfJsonLoader.upgradeVersion_then, lift.
    now destruct (updateVersion _).
  - unfold GltfJsonLoader.processGltf_then_upgradeVersion, bind.
    rewrite loadEmbeddedBuffers_run. now destruct l.
  - reflexivity.
  - unfold GltfJsonLoader.load_then_processGltf, bind. cbn [get].
    destruct (state_eqb _ DESTROYED).
    + rewrite json_unload_run. now destruct l.
    + now destruct l.
Qed.

(** C9 as stated fails: [destroy] ends in [destroyObject(this)], which
    gives the instance an [isDestroyed] of its own.  After [destroy], the
    call [isDestroyed()] answers true on each of the four loaders. *)
Lemma isDestroyed_after_destroy :
  GltfBufferViewLoader.call_isDestroyed
    (final (GltfBufferViewLoader.call_destroy Example.bufferViewLoader)) =
    Normal true /\
  GltfImageLoader.call_isDestroyed
    (final (GltfImageLoader.call_destroy Example.imageLoader)) =
    Normal true /\
  GltfJsonLoader.call_isDestroyed
    (final (GltfJsonLoader.call_destroy Example.jsonLoader)) =
    Normal true /\
  GltfDracoLoader.call_isDestroyed
    (final (GltfDracoLoader.call_destroy Example.dracoLoader)) =
    Normal true.
Proof. repeat split; reflexivity. Qed.

(** C9, amended.  In each of the four loaders the prototype's [isDestroyed]
    returns false; the call [isDestroyed()] answers false on every loader
    object that still has the prototype's method, whatever its [_state];
    [load], the success callbacks and the failure callbacks leave the
    object's methods alone; and after [destroy] the call answers true. *)
Theorem isDestroyed_false_until_destroy :
  ((forall l, GltfBufferViewLoader.isDestroyed l = false) /\
   (forall l,
      m_isDestroyed (GltfBufferViewLoader.methods l) = Inherited ->
      GltfBufferViewLoader.call_isDestroyed l = Normal false) /\
   keeps_methods GltfBufferViewLoader.methods GltfBufferViewLoader.load /\
   (forall k, keeps_methods GltfBufferViewLoader.methods
                (GltfBufferViewLoader.resume k)) /\
   (forall e, keeps_methods GltfBufferViewLoader.methods
                (GltfBufferViewLoader.bufferLoader_rejected e)) /\
   (forall l,
      GltfBufferViewLoader.call_isDestroyed
        (final (GltfBufferViewLoader.destroy l)) = Normal true)) /\
  ((forall l, GltfImageLoader.isDestroyed l = false) /\
   (forall l,
      m_isDestroyed (GltfImageLoader.methods l) = Inherited ->
      GltfImageLoader.call_isDestroyed l = Normal false) /\
   keeps_methods GltfImageLoader.methods GltfImageLoader.load /\
   (forall k, keeps_methods GltfImageLoader.methods
                (GltfImageLoader.resume k)) /\
   (forall e, keeps_methods GltfImageLoader.methods
                (GltfImageLoader.bufferViewLoader_rejected e)) /\
   (forall uri e, keeps_methods GltfImageLoader.methods
                    (GltfImageLoader.fetch_rejected uri e)) /\
   (forall l,
      GltfImageLoader.call_isDestroyed
        (final (GltfImageLoader.destroy l)) = Normal true)) /\
  ((forall l, GltfJsonLoader.isDestroyed l = false) /\
   (forall l,
      m_isDestroyed (GltfJsonLoader.methods l) = Inherited ->
      GltfJsonLoader.call_isDestroyed l = Normal false) /\
   keeps_methods GltfJsonLoader.methods GltfJsonLoader.load /\
   (forall parse isDataUri updateVersion addDefaults removePipelineExtras k,
      keeps_methods GltfJsonLoader.methods
        (GltfJsonLoader.resume parse isDataUri updateVersion addDefaults
           removePipelineExtras k)) /\
   (forall e, keeps_methods GltfJsonLoader.methods
                (GltfJsonLoader.fetch_rejected e)) /\
   (forall l,
      GltfJsonLoader.call_isDestroyed
        (final (GltfJsonLoader.destroy l)) = Normal true)) /\
  ((forall l, GltfDracoLoader.isDestroyed l = false) /\
   (forall l,
      m_isDestroyed (GltfDracoLoader.methods l) = Inherited ->
      GltfDracoLoader.call_isDestroyed l = Normal false) /\
   keeps_methods GltfDracoLoader.methods GltfDracoLoader.load /\
   (forall p, keeps_methods GltfDracoLoader.methods
                (GltfDracoLoader.update p)) /\
   (forall k, keeps_methods GltfDracoLoader.methods
                (GltfDracoLoader.resume k)) /\
   (forall e, keeps_methods GltfDracoLoader.methods
                (GltfDracoLoader.bufferViewLoader_rejected e)) /\
   (forall l,
      GltfDracoLoader.call_isDestroyed
        (final (GltfDracoLoader.destroy l)) = Normal true)).
Proof.
  repeat apply conj; try reflexivity.
  (* buffer view *)
  - intros l H. unfold GltfBufferViewLoader.call_isDestroyed. now rewrite H.
  - intros [? ? ? [u|] ? ? ? ? ? ? ? ?]; reflexivity.
  - intros [mem ta] [? ? ? ? ? ? ? child ? st ? ?].
    cbn [GltfBufferViewLoader.resume].
    unfold GltfBufferViewLoader.load_then, bind, lift, new_Uint8Array.
    cbn [get GltfBufferViewLoader._state GltfBufferViewLoader._byteOffset
         GltfBufferViewLoader._byteLength].
    destruct st, child; cbn; try reflexivity;
      destruct (_ <=? _); reflexivity.
  - intros e [? ? ? ? ? ? ? child ? ? ? ?]. destruct child; reflexivity.
  - intros [? ? ? ? ? ? ? child ? ? ? ?]. destruct child; reflexivity.
  (* image *)
  - intros l H. unfold GltfImageLoader.call_isDestroyed. now rewrite H.
  - intros [? ? ? ? [id|] ? ? ? ? ? ?]; reflexivity.
  - intros [mem ta | image] [? ? ? ? ? ? child ? st ? ?];
      cbn [GltfImageLoader.resume]; rewrite ?void_final.
    + unfold GltfImageLoader.loadFromBufferView_then, bind, lift.
      cbn [get GltfImageLoader._state].
      destruct st, child; cbn; try reflexivity;
        destruct (loadImageFromBufferTypedArray mem ta); reflexivity.
    + destruct st, child; reflexivity.
  - intros e [? ? ? ? ? ? child ? ? ? ?]. destruct child; reflexivity.
  - intros uri e [? ? ? ? ? ? child ? ? ? ?]. destruct child; reflexivity.
  - intros [? ? ? ? ? ? child ? ? ? ?]. destruct child; reflexivity.
  (* JSON *)
  - intros l H. unfold GltfJsonLoader.call_isDestroyed. now rewrite H.
  - intros []; reflexivity.
  - intros. apply json_keeps_methods.
  - intros e l.
    unfold GltfJsonLoader.fetch_rejected, GltfJsonLoader.load_otherwise, bind.
    rewrite json_unload_run. now destruct l.
  - intros l. unfold GltfJsonLoader.destroy, bind. rewrite json_unload_run.
    now destruct l.
  (* Draco *)
  - intros l H. unfold GltfDracoLoader.call_isDestroyed. now rewrite H.
  - intros []; reflexivity.
  - intros p [? ? ? ? ? ? ta dp ? ? ? ?].
    destruct ta, dp, p; reflexivity.
  - intros [ta | d] [? ? ? ? ? child ? ? ? st ? ?];
      destruct st, child; reflexivity.
  - intros e [? ? ? ? ? child ? ? ? ? ? ?]. destruct child; reflexivity.
  - intros [? ? ? ? ? child ? ? ? ? ? ?]. destruct child; reflexivity.
Qed.

(** A buffer view loader that is loading, and the same loader destroyed. *)
Lemma isDestroyed_false_until_destroy_witness :
  let loading := final (GltfBufferViewLoader.load Example.bufferViewLoader) in
  GltfBufferViewLoader._state loading = LOADING /\
  GltfBufferViewLoader.call_isDestroyed loading = Normal false /\
  GltfBufferViewLoader.call_isDestroyed
    (final (GltfBufferViewLoader.destroy loading)) = Normal true.
Proof.
  lazy zeta. split; [reflexivity |]. split.
  - apply (proj1 (proj2 (proj1 isDestroyed_false_until_destroy))).
    reflexivity.
  - apply (proj1 isDestroyed_false_until_destroy).
Defined.

(** * Further properties of the loaders *)

(** ** The bounds of a buffer view *)

Lemma new_Uint8Array_outside (mem : Memory) (b : ArrayBuffer) (off len : nat) :
  length (buffer_bytes mem b) < off + len ->
  new_Uint8Array mem b off len =
  Throw (RangeError "Invalid typed array length").
Proof.
  unfold new_Uint8Array. intros H.
  destruct (Nat.leb_spec (off + len) (length (buffer_bytes mem b)));
    [lia | reflexivity].
Qed.

Lemma new_Uint8Array_fits (mem : Memory) (b : ArrayBuffer) (off len : nat) :
  off + len <= length (buffer_bytes mem b) ->
  new_Uint8Array mem b off len = Normal (mkUint8Array b off len).
Proof.
  unfold new_Uint8Array. intros H.
  destruct (Nat.leb_spec (off + len) (length (buffer_bytes mem b)));
    [reflexivity | lia].
Qed.

(** X1.  A buffer view that does not fit the array buffer of its parent:
    the typed array constructor throws inside the [then] callback, so the
    loader releases the buffer loader, becomes FAILED and rejects with the
    RangeError as cause of "Failed to load buffer view"; no typed array is
    kept and the promise is not resolved. *)
Theorem bufferView_outside_array_buffer_fails
  (cache : ResourceCache) (gltfResource baseResource : Resource)
  (uri : option string) (bufferId o L : nat)
  (mem : Memory) (parent : Uint8Array) :
  length (buffer_bytes mem (buffer parent)) < byteOffset parent + o + L ->
  let loading :=
    GltfBufferViewLoader.load
      (GltfBufferViewLoader.new cache gltfResource baseResource uri bufferId
         o L) in
  let arrived :=
    GltfBufferViewLoader.bufferLoader_fulfilled mem parent (final loading) in
  let annotated :=
    getError (RangeError "Invalid typed array length")
      "Failed to load buffer view" in
  result arrived = Normal tt /\
  loads (trace loading) = unloads (trace arrived) /\
  trace arrived =
    map CacheUnload (loads (trace loading)) ++
    [SetState FAILED; PromiseReject annotated] /\
  GltfBufferViewLoader._state (final arrived) = FAILED /\
  GltfBufferViewLoader._promise (final arrived) = Rejected annotated /\
  GltfBufferViewLoader._typedArray (final arrived) = None /\
  GltfBufferViewLoader._bufferLoader (final arrived) = None.
Proof.
  intros Hout loading arrived annotated. subst loading arrived annotated.
  unfold GltfBufferViewLoader.bufferLoader_fulfilled, otherwise,
    GltfBufferViewLoader.load_then.
  destruct uri as [u|]; cbn -[new_Uint8Array];
    rewrite (new_Uint8Array_outside _ _ _ _ Hout); cbn;
    repeat split; reflexivity.
Qed.

(** Twelve bytes asked of the sixteen of [Example.memory], from byte 8. *)
Lemma bufferView_outside_array_buffer_fails_witness :
  let arrived :=
    GltfBufferViewLoader.bufferLoader_fulfilled Example.memory Example.parent
      (final (GltfBufferViewLoader.load
                (GltfBufferViewLoader.new Example.cache Example.gltfResource
                   Example.baseResource (Some "geometry.bin") 0 8 12))) in
  GltfBufferViewLoader._state (final arrived) = FAILED /\
  unloads (trace arrived) = [1].
Proof.
  pose proof
    (bufferView_outside_array_buffer_fails Example.cache Example.gltfResource
       Example.baseResource (Some "geometry.bin") 0 8 12 Example.memory
       Example.parent ltac:(vm_compute; lia)) as H.
  lazy zeta in H. destruct H as (_ & Hb & _ & Hs & _).
  split; [exact Hs | rewrite <- Hb; reflexivity].
Defined.

(** X2.  The only bound the buffer view loader has is the array buffer: a
    buffer view that fits the array buffer becomes READY with the [L] bytes
    found [o] bytes after the start of the parent typed array, also when
    [o + L] is more than the parent typed array's own length, in which case
    the view shows bytes of the array buffer that lie after the parent. *)
Theorem bufferView_bound_is_the_array_buffer
  (cache : ResourceCache) (gltfResource baseResource : Resource)
  (uri : option string) (bufferId o L : nat)
  (mem : Memory) (parent : Uint8Array) :
  byteOffset parent + o + L <= length (buffer_bytes mem (buffer parent)) ->
  let ready :=
    andThen
      (GltfBufferViewLoader.load
         (GltfBufferViewLoader.new cache gltfResource baseResource uri
            bufferId o L))
      (GltfBufferViewLoader.bufferLoader_fulfilled mem parent) in
  let view := mkUint8Array (buffer parent) (byteOffset parent + o) L in
  GltfBufferViewLoader._state (final ready) = READY /\
  GltfBufferViewLoader._typedArray (final ready) = Some view /\
  elements mem view =
    take L (drop (byteOffset parent + o) (buffer_bytes mem (buffer parent))) /\
  length (elements mem view) = L /\
  (byteLength parent <= o ->
   elements mem view =
     take L (drop (o - byteLength parent)
               (drop (byteOffset parent + byteLength parent)
                  (buffer_bytes mem (buffer parent))))).
Proof.
  intros Hfit ready view. subst ready view.
  unfold GltfBufferViewLoader.bufferLoader_fulfilled, otherwise,
    GltfBufferViewLoader.load_then, andThen.
  assert (Hlen : length (elements mem
                           (mkUint8Array (buffer parent)
                              (byteOffset parent + o) L)) = L).
  { unfold elements. cbn [buffer byteOffset byteLength].
    rewrite length_take, length_drop. lia. }
  destruct uri as [u|]; cbn -[new_Uint8Array elements];
    rewrite (new_Uint8Array_fits _ _ _ _ Hfit); cbn -[elements];
    (split; [reflexivity |]); (split; [reflexivity |]);
    (split; [reflexivity |]); (split; [exact Hlen |]);
    intros Hafter; unfold elements; cbn [buffer byteOffset byteLength];
    rewrite drop_drop; f_equal; f_equal; lia.
Qed.

(** The parent is bytes 0 to 7 of [Example.memory]; the buffer view asks for
    four bytes from byte 8 and gets the four bytes after the parent. *)
Lemma bufferView_bound_is_the_array_buffer_witness :
  let ready :=
    andThen
      (GltfBufferViewLoader.load
         (GltfBufferViewLoader.new Example.cache Example.gltfResource
            Example.baseResource (Some "geometry.bin") 0 8 4))
      (GltfBufferViewLoader.bufferLoader_fulfilled Example.memory
         (mkUint8Array 0 0 8)) in
  GltfBufferViewLoader._state (final ready) = READY /\
  (exists view,
     GltfBufferViewLoader._typedArray (final ready) = Some view /\
     elements Example.memory view = [x00; x00; x00; x0d]).
Proof.
  pose proof
    (bufferView_bound_is_the_array_buffer Example.cache Example.gltfResource
       Example.baseResource (Some "geometry.bin") 0 8 4 Example.memory
       (mkUint8Array 0 0 8) ltac:(vm_compute; lia)) as H.
  lazy zeta in H. destruct H as (Hs & Hv & _).
  split; [exact Hs |]. eexists. split; [exact Hv | reflexivity].
Defined.

(** ** A reference is released at most once *)

Lemma conservation_by_step {S K : Type} (held : S -> list Handle)
  (step : K -> Eff S unit) :
  (forall (l : S) (k : K),
     unloads (trace (step k l)) ++ held (final (step k l)) = held l) ->
  forall (l : S) (ks : list K),
    unloads (trace (resume_all step ks l)) ++
    held (final (resume_all step ks l)) = held l.
Proof.
  intros Hstep l ks. revert l.
  induction ks as [|k ks IH]; intros l; [reflexivity |].
  cbn [resume_all]. rewrite andThen_final, andThen_trace, unloads_app.
  rewrite <- app_assoc, IH. apply Hstep.
Qed.

Lemma bufferView_event_conserves (l : GltfBufferViewLoader.t)
  (ev : BufferViewEvent) :
  unloads (trace (bufferView_event ev l)) ++
  option_list (GltfBufferViewLoader._bufferLoader
                 (final (bufferView_event ev l))) =
  option_list (GltfBufferViewLoader._bufferLoader l).
Proof.
  destruct l as [? ? ? ? ? ? ? child ? st ? [? ? ? md]].
  destruct ev as [mem ta | e |]; cbn [bufferView_event].
  - unfold GltfBufferViewLoader.bufferLoader_fulfilled, otherwise,
      GltfBufferViewLoader.load_then, bind, lift, new_Uint8Array.
    cbn [get GltfBufferViewLoader._state GltfBufferViewLoader._byteOffset
         GltfBufferViewLoader._byteLength].
    destruct st, child; cbn; try reflexivity;
      destruct (_ <=? _); reflexivity.
  - destruct child; reflexivity.
  - destruct md, child; reflexivity.
Qed.

Lemma image_event_conserves (l : GltfImageLoader.t) (ev : ImageEvent) :
  unloads (trace (image_event ev l)) ++
  option_list (GltfImageLoader._bufferViewLoader
                 (final (image_event ev l))) =
  option_list (GltfImageLoader._bufferViewLoader l).
Proof.
  destruct l as [? ? ? ? ? ? child ? st ? [? ? ? md]].
  destruct ev as [mem ta | e | image | e | uri image | uri e |];
    cbn [image_event]; rewrite ?void_final, ?void_trace.
  - unfold GltfImageLoader.bufferViewLoader_fulfilled,
      GltfImageLoader.loadFromBufferView_then, bind, lift.
    cbn [get GltfImageLoader._state].
    destruct st, child; cbn; try reflexivity;
      destruct (loadImageFromBufferTypedArray mem ta); reflexivity.
  - destruct child; reflexivity.
  - destruct st, child; reflexivity.
  - destruct child; reflexivity.
  - destruct st, child; reflexivity.
  - destruct child; reflexivity.
  - destruct md, child; reflexivity.
Qed.

Lemma draco_event_conserves (l : GltfDracoLoader.t) (ev : DracoEvent) :
  unloads (trace (draco_event ev l)) ++
  option_list (GltfDracoLoader._bufferViewLoader
                 (final (draco_event ev l))) =
  option_list (GltfDracoLoader._bufferViewLoader l).
Proof.
  destruct l as [? ? ? ? ? child bytes promise ? st ? [? mu ? md]].
  destruct ev as [ta | e | p | d | e |]; cbn [draco_event].
  - destruct st, child; reflexivity.
  - destruct child; reflexivity.
  - destruct mu, bytes, promise, p, child; reflexivity.
  - destruct st, child; reflexivity.
  - destruct child; reflexivity.
  - destruct md, child; reflexivity.
Qed.

(** X3.  In the buffer view, image and Draco loaders, whatever happens to a
    loader and in whatever order (promises fulfilled or rejected, [update],
    [destroy], any number of times), the cache references released so far
    followed by the one still held are the one that was held at the start: a
    reference is released at most once, and only if it was held. *)
Theorem child_reference_released_at_most_once :
  (forall (l : GltfBufferViewLoader.t) (evs : list BufferViewEvent),
     let o := resume_all bufferView_event evs l in
     unloads (trace o) ++
     option_list (GltfBufferViewLoader._bufferLoader (final o)) =
     option_list (GltfBufferViewLoader._bufferLoader l)) /\
  (forall (l : GltfImageLoader.t) (evs : list ImageEvent),
     let o := resume_all image_event evs l in
     unloads (trace o) ++
     option_list (GltfImageLoader._bufferViewLoader (final o)) =
     option_list (GltfImageLoader._bufferViewLoader l)) /\
  (forall (l : GltfDracoLoader.t) (evs : list DracoEvent),
     let o := resume_all draco_event evs l in
     unloads (trace o) ++
     option_list (GltfDracoLoader._bufferViewLoader (final o)) =
     option_list (GltfDracoLoader._bufferViewLoader l)).
Proof.
  repeat apply conj; intros l evs; lazy zeta.
  - apply (conservation_by_step
             (fun l => option_list (GltfBufferViewLoader._bufferLoader l))).
    apply bufferView_event_conserves.
  - apply (conservation_by_step
             (fun l => option_list (GltfImageLoader._bufferViewLoader l))).
    apply image_event_conserves.
  - apply (conservation_by_step
             (fun l => option_list (GltfDracoLoader._bufferViewLoader l))).
    apply draco_event_conserves.
Qed.

(** ** What the sniffing reads *)

Lemma index_is_take (bs : list byte) (n i : nat) (x : byte) :
  i < n -> index_is (take n bs) i x = index_is bs i x.
Proof. intros H. unfold index_is. now rewrite lookup_take_lt. Qed.

Lemma matches_at_take (sig bs : list byte) (n offset : nat) :
  offset + length sig <= n ->
  matches_at (take n bs) offset sig = matches_at bs offset sig.
Proof.
  revert offset. induction sig as [|x sig IH]; intros offset H;
    [reflexivity |].
  cbn [matches_at]. cbn [length] in H.
  rewrite index_is_take by lia. rewrite IH by lia. reflexivity.
Qed.

(** X4.  The MIME type, or the error, depends on the first twelve bytes of
    the buffer only: what follows them is never read. *)
Theorem getMimeTypeFromTypedArray_reads_twelve_bytes (bs : list byte) :
  getMimeTypeFromTypedArray bs = getMimeTypeFromTypedArray (take 12 bs).
Proof.
  rewrite !getMimeTypeFromTypedArray_cascade.
  unfold RIFF, WEBP.
  rewrite !(matches_at_take _ bs 12) by (simpl; lia).
  reflexivity.
Qed.

(** X5.  Short buffers: with fewer than two bytes, the empty buffer among
    them, the sniffing throws the invalid-header error whatever the bytes
    are, and with fewer than twelve bytes the answer is never image/webp, so
    a RIFF file cut before byte 12 is an invalid header. *)
Theorem getMimeTypeFromTypedArray_short_buffer (bs : list byte) :
  (length bs < 2 -> getMimeTypeFromTypedArray bs = Throw invalid_header) /\
  (length bs < 12 ->
   getMimeTypeFromTypedArray bs <> Normal "image/webp" /\
   (has_signature RIFF 0 bs ->
    getMimeTypeFromTypedArray bs = Throw invalid_header)).
Proof.
  split.
  - intros Hlen. apply no_signature_found.
    + intros sig mime Hin Hsig. unfold has_signature in Hsig.
      assert (Hl : length sig = 2).
      { simpl in Hin.
        repeat (destruct Hin as [[= <- <-] | Hin]; [reflexivity |]).
        contradiction. }
      apply (f_equal length) in Hsig.
      rewrite length_take, length_drop, Hl in Hsig. lia.
    + intros [Hriff _]. unfold has_signature in Hriff.
      apply (f_equal length) in Hriff.
      rewrite length_take, length_drop in Hriff.
      change (length RIFF) with 4 in Hriff. lia.
  - intros Hlen.
    assert (Hnot : ~ is_webp bs).
    { intros [_ Hwebp]. unfold has_signature in Hwebp.
      apply (f_equal length) in Hwebp.
      rewrite length_take, length_drop in Hwebp.
      change (length WEBP) with 4 in Hwebp. lia. }
    split.
    + intros H. apply Hnot, webp_found, H.
    + intros Hriff. apply no_signature_found; [| exact Hnot].
      intros sig mime Hin Hsig. unfold has_signature in Hriff, Hsig.
      destruct bs as [|a [|b rest]]; simpl in Hriff; try discriminate.
      simpl in Hin.
      repeat (destruct Hin as [[= <- <-] | Hin];
              [simpl in Hsig; injection Hsig as -> ->;
               destruct rest as [|c [|d ?]]; discriminate Hriff |]).
      contradiction.
Qed.

(** The empty buffer, and "RIFF" followed by four bytes. *)
Lemma getMimeTypeFromTypedArray_short_buffer_witness :
  getMimeTypeFromTypedArray [] = Throw invalid_header /\
  getMimeTypeFromTypedArray [x52; x49; x46; x46; x10; x00; x00; x00] =
    Throw invalid_header.
Proof.
  split.
  - apply (proj1 (getMimeTypeFromTypedArray_short_buffer [])). simpl. lia.
  - apply (proj2 (getMimeTypeFromTypedArray_short_buffer
                    [x52; x49; x46; x46; x10; x00; x00; x00])).
    + simpl. lia.
    + reflexivity.
Defined.

(** ** An embedded image, from [load] to [destroy] *)

(** X6.  An image embedded in a buffer view whose bytes have a known
    signature: when the bytes arrive the loader hands them to the decoder
    of the MIME type and, still LOADING, keeps the buffer view referenced
    while the decoder works; when the image arrives it releases the buffer
    view, forgets the glTF and the uri, keeps the image, becomes READY and
    resolves.  Over the whole load the one reference taken is released
    once; a [destroy] after READY releases nothing and drops the image. *)
Theorem image_embedded_load_is_balanced
  (cache : ResourceCache) (gltfResource baseResource : Resource)
  (gltf : Gltf.t) (bufferViewId : nat) (uri : option string)
  (mem : Memory) (typedArray : Uint8Array) (mimeType : string)
  (image : Image) :
  getMimeTypeFromTypedArray (elements mem typedArray) = Normal mimeType ->
  let bufferViewLoader := cache (loadBufferView bufferViewId false) in
  let loading :=
    GltfImageLoader.load
      (GltfImageLoader.new cache gltfResource baseResource gltf
         (Some bufferViewId) uri) in
  let sniffed :=
    GltfImageLoader.bufferViewLoader_fulfilled mem typedArray
      (final loading) in
  let decoded := GltfImageLoader.decode_fulfilled image (final sniffed) in
  let destroyed := GltfImageLoader.call_destroy (final decoded) in
  (trace loading =
     [CacheLoad (loadBufferView bufferViewId false) bufferViewLoader;
      SetState LOADING]) /\
  (result sniffed = Normal (Some (decode_path mimeType typedArray)) /\
   trace sniffed = [] /\
   GltfImageLoader._state (final sniffed) = LOADING /\
   GltfImageLoader._bufferViewLoader (final sniffed) = Some bufferViewLoader) /\
  (trace decoded =
     [CacheUnload bufferViewLoader; SetState READY; PromiseResolve] /\
   GltfImageLoader._state (final decoded) = READY /\
   GltfImageLoader._promise (final decoded) = Resolved /\
   GltfImageLoader._image (final decoded) = Some image /\
   GltfImageLoader._bufferViewLoader (final decoded) = None /\
   GltfImageLoader._gltf (final decoded) = None /\
   GltfImageLoader._uri (final decoded) = None) /\
  (trace destroyed = [SetState DESTROYED] /\
   GltfImageLoader._image (final destroyed) = None /\
   GltfImageLoader._promise (final destroyed) = Resolved).
Proof.
  intros Hmime. lazy zeta.
  assert (Hcall : loadImageFromBufferTypedArray mem typedArray =
                  Normal (decode_path mimeType typedArray)).
  { unfold loadImageFromBufferTypedArray, decode_path. rewrite Hmime.
    destruct (String.eqb mimeType "image/ktx"); [reflexivity |].
    destruct (String.eqb mimeType "image/crn"); reflexivity. }
  unfold GltfImageLoader.bufferViewLoader_fulfilled,
    GltfImageLoader.loadFromBufferView_then.
  cbn -[loadImageFromBufferTypedArray]. rewrite Hcall.
  cbn. repeat split; reflexivity.
Qed.

(** The PNG of [Example.memory], embedded in buffer view 2. *)
Lemma image_embedded_load_is_balanced_witness :
  let loading := GltfImageLoader.load Example.imageLoader in
  let sniffed :=
    GltfImageLoader.bufferViewLoader_fulfilled Example.memory Example.parent
      (final loading) in
  let decoded := GltfImageLoader.decode_fulfilled 7 (final sniffed) in
  result sniffed =
    Normal (Some (loadImageFromTypedArray Example.parent "image/png" false)) /\
  unloads (trace decoded) = loads (trace loading) /\
  GltfImageLoader._image (final decoded) = Some 7.
Proof.
  pose proof
    (image_embedded_load_is_balanced Example.cache Example.gltfResource
       Example.baseResource Example.legacy_gltf 2 None Example.memory
       Example.parent "image/png" 7 eq_refl) as H.
  lazy zeta in H.
  destruct H as (Hl & (Hr & _) & (Ht & _ & _ & Hi & _) & _).
  split; [exact Hr |]. split; [| exact Hi].
  unfold Example.imageLoader. rewrite Ht, Hl. reflexivity.
Defined.

(** ** Decoding data URIs *)




(** ** What a whole load asks of the cache *)



Lemma requests_app (t1 t2 : Trace) :
  requests (t1 ++ t2) = requests t1 ++ requests t2.
Proof.
  induction t1 as [|[] t1 IH]; simpl; rewrite ?IH; reflexivity.
Qed.

Lemma requests_asked (cache : ResourceCache) (rs : list CacheRequest) :
  requests (map (asked cache) rs) = rs.
Proof. induction rs as [|r rs IH]; simpl; [| rewrite IH]; reflexivity. Qed.

Lemma requests_unload (hs : list Handle) : requests (map CacheUnload hs) = [].
Proof. induction hs as [|h hs IH]; [reflexivity | exact IH]. Qed.

Lemma loads_app (t1 t2 : Trace) : loads (t1 ++ t2) = loads t1 ++ loads t2.
Proof.
  induction t1 as [|[] t1 IH]; simpl; rewrite ?IH; reflexivity.
Qed.

Lemma loads_asked (cache : ResourceCache) (rs : list CacheRequest) :
  loads (map (asked cache) rs) = map cache rs.
Proof. induction rs as [|r rs IH]; simpl; [| rewrite IH]; reflexivity. Qed.

Lemma loads_unload (hs : list Handle) : loads (map CacheUnload hs) = [].
Proof. induction hs as [|h hs IH]; [reflexivity | exact IH]. Qed.




(** ** A load that fails *)

Lemma otherwise_throw {S : Type} (m : Eff S unit) (h : JsError -> Eff S unit)
  (l l' : S) (e : JsError) (t : Trace) :
  m l = mkOutcome (Throw e) l' t ->
  otherwise m h l =
  mkOutcome (result (h e l')) (final (h e l')) (t ++ trace (h e l')).
Proof. intros H. unfold otherwise. rewrite H. now destruct (h e l'). Qed.

Lemma json_load_otherwise_run (error : JsError) (l : GltfJsonLoader.t) :
  let annotated :=
    getError error
      ("Failed to load glTF: " ++
         Resource_url (GltfJsonLoader._gltfResource l))%string in
  GltfJsonLoader.load_otherwise error l =
  mkOutcome (Normal tt)
    (GltfJsonLoader.set_promise
       (settle (GltfJsonLoader._promise l) (Rejected annotated))
       (GltfJsonLoader.set_state FAILED
          (GltfJsonLoader.set_gltf None
             (GltfJsonLoader.set_bufferLoader (Some []) l))))
    (map CacheUnload (GltfJsonLoader._bufferLoaders l) ++
     [SetState FAILED; PromiseReject annotated]).
Proof.
  lazy zeta. unfold GltfJsonLoader.load_otherwise, bind.
  rewrite json_unload_run. destruct l as []. cbn.
  rewrite ?app_nil_r. reflexivity.
Qed.

(** X9.  A file that does not parse: the loader asks nothing of the cache,
    releases what it holds, becomes FAILED and rejects with the parse error
    as cause of "Failed to load glTF: " followed by the url of the glTF
    resource; no document is exposed. *)
Theorem json_malformed_document_fails
  (parse : list byte -> Completion Gltf.t) (isDataUri : string -> bool)
  (updateVersion : Gltf.t -> Completion Gltf.t)
  (addDefaults removePipelineExtras : Gltf.t -> Gltf.t)
  (l : GltfJsonLoader.t) (arrayBuffer : list byte)
  (decoded external : list (nat * Uint8Array)) (error : JsError) :
  GltfJsonLoader._state l <> DESTROYED ->
  parse arrayBuffer = Throw error ->
  let o :=
    GltfJsonLoader.fetch_fulfilled parse isDataUri updateVersion addDefaults
      removePipelineExtras arrayBuffer decoded external l in
  let annotated :=
    getError error
      ("Failed to load glTF: " ++
         Resource_url (GltfJsonLoader._gltfResource l))%string in
  result o = Normal tt /\
  trace o =
    map CacheUnload (GltfJsonLoader._bufferLoaders l) ++
    [SetState FAILED; PromiseReject annotated] /\
  requests (trace o) = [] /\
  GltfJsonLoader._state (final o) = FAILED /\
  GltfJsonLoader._promise (final o) =
    settle (GltfJsonLoader._promise l) (Rejected annotated) /\
  GltfJsonLoader._gltf (final o) = None.
Proof.
  intros Hstate Hparse o annotated. subst o annotated.
  assert (Hnot : state_eqb (GltfJsonLoader._state l) DESTROYED = false)
    by (destruct (GltfJsonLoader._state l); try reflexivity; contradiction).
  unfold GltfJsonLoader.fetch_fulfilled.
  erewrite otherwise_throw; cycle 1.
  { unfold GltfJsonLoader.fetch_to_ready.
    erewrite bind_throw; [reflexivity |].
    unfold GltfJsonLoader.load_then_fetch, GltfJsonLoader.processGltf,
      bind, lift. cbn [get result final trace]. rewrite Hnot, Hparse.
    reflexivity. }
  rewrite json_load_otherwise_run. cbn [result final trace app].
  split; [reflexivity |]. split; [reflexivity |].
  split; [rewrite requests_app, requests_unload; reflexivity |].
  destruct l; repeat split; reflexivity.
Qed.

(** The loader of [Example2] and a file that is not JSON. *)
Lemma json_malformed_document_fails_witness :
  let o :=
    GltfJsonLoader.fetch_fulfilled Example2.parse_fails Example2.isDataUri
      Example.updateVersion Example.addDefaults Example.removePipelineExtras
      [x3c] [] [] Example2.loading in
  trace o =
    [SetState FAILED;
     PromiseReject
       (Annotated "Failed to load glTF: model.gltf" Example2.syntax_error)] /\
  GltfJsonLoader._state (final o) = FAILED.
Proof.
  pose proof
    (json_malformed_document_fails Example2.parse_fails Example2.isDataUri
       Example.updateVersion Example.addDefaults Example.removePipelineExtras
       Example2.loading [x3c] [] [] Example2.syntax_error
       ltac:(discriminate) eq_refl) as H.
  lazy zeta in H. destruct H as (_ & Ht & _ & Hs & _).
  split; [exact Ht | exact Hs].
Defined.

(** X10.  An upgrade that fails: the external buffers were requested for
    it, and the failure releases every one of them, after whatever the
    loader held before, then the loader becomes FAILED and rejects with the
    upgrade's error as cause.  On a loader that held nothing, the loaders
    released are the loaders requested. *)
Theorem json_failed_upgrade_releases_external_buffers
  (parse : list byte -> Completion Gltf.t) (isDataUri : string -> bool)
  (updateVersion : Gltf.t -> Completion Gltf.t)
  (addDefaults removePipelineExtras : Gltf.t -> Gltf.t)
  (l : GltfJsonLoader.t) (arrayBuffer : list byte)
  (decoded external : list (nat * Uint8Array)) (gltf : Gltf.t)
  (error : JsError) :
  let document :=
    GltfJsonLoader.store_sources decoded
      (fst (GltfJsonLoader.decodeDataUris isDataUri gltf)) in
  GltfJsonLoader._state l <> DESTROYED ->
  parse arrayBuffer = Normal gltf ->
  String.eqb (Gltf.asset_version document) "2.0" = false ->
  updateVersion (GltfJsonLoader.store_sources external document) =
    Throw error ->
  let o :=
    GltfJsonLoader.fetch_fulfilled parse isDataUri updateVersion addDefaults
      removePipelineExtras arrayBuffer decoded external l in
  let annotated :=
    getError error
      ("Failed to load glTF: " ++
         Resource_url (GltfJsonLoader._gltfResource l))%string in
  result o = Normal tt /\
  requests (trace o) =
    map (external_request (GltfJsonLoader._baseResource l))
        (external_buffers (Gltf.buffers document) 0) /\
  unloads (trace o) = GltfJsonLoader._bufferLoaders l ++ loads (trace o) /\
  last (trace o) = Some (PromiseReject annotated) /\
  GltfJsonLoader._state (final o) = FAILED /\
  GltfJsonLoader._promise (final o) =
    settle (GltfJsonLoader._promise l) (Rejected annotated) /\
  GltfJsonLoader._gltf (final o) = None.
Proof.
  intros document Hstate Hparse Hversion Hupgrade o annotated.
  subst o annotated.
  assert (Hnot : state_eqb (GltfJsonLoader._state l) DESTROYED = false)
    by (destruct (GltfJsonLoader._state l); try reflexivity; contradiction).
  unfold GltfJsonLoader.fetch_fulfilled.
  erewrite otherwise_throw; cycle 1.
  { unfold GltfJsonLoader.fetch_to_ready.
    erewrite bind_normal; cycle 1.
    { unfold GltfJsonLoader.load_then_fetch, GltfJsonLoader.processGltf,
        bind, lift. cbn [get result final trace]. rewrite Hnot, Hparse.
      reflexivity. }
    destruct (GltfJsonLoader.decodeDataUris isDataUri gltf) as [g0 uris].
    cbn [fst] in *.
    erewrite bind_normal; cycle 1.
    { unfold GltfJsonLoader.processGltf_then_decodeDataUris.
      erewrite bind_normal; cycle 1.
      { rewrite upgradeVersion_run. fold document. rewrite Hversion.
        reflexivity. }
      reflexivity. }
    cbn [result final trace ret].
    erewrite bind_throw; cycle 1.
    { unfold GltfJsonLoader.upgradeVersion_then, lift. fold document.
      rewrite Hupgrade. reflexivity. }
    cbn [app]. rewrite app_nil_r. reflexivity. }
  rewrite json_load_otherwise_run. cbn [result final trace].
  destruct l as [cache ? base ? ? held ? ? ? ?].
  cbn [GltfJsonLoader._bufferLoaders GltfJsonLoader._gltfResource
       GltfJsonLoader._state GltfJsonLoader._promise GltfJsonLoader._gltf
       GltfJsonLoader._baseResource GltfJsonLoader._resourceCache
       GltfJsonLoader.set_bufferLoaders GltfJsonLoader.set_promise
       GltfJsonLoader.set_state GltfJsonLoader.set_gltf
       GltfJsonLoader.set_bufferLoader].
  split; [reflexivity |].
  split.
  { rewrite !requests_app, requests_asked, requests_unload. cbn [requests].
    now rewrite !app_nil_r. }
  split.
  { rewrite !unloads_app, !loads_app, unloads_asked, loads_asked,
      unloads_unload, loads_unload. cbn [unloads loads].
    now rewrite !app_nil_r. }
  split.
  { rewrite !app_assoc.
    match goal with
    | |- last (?t ++ [?a; ?b]) = _ =>
        change (t ++ [a; b]) with (t ++ ([a] ++ [b]));
        rewrite (app_assoc t [a] [b]); apply last_snoc
    end. }
  repeat split; reflexivity.
Qed.

(** The version 1.0 document of [Example] and an upgrade that throws. *)
Lemma json_failed_upgrade_releases_external_buffers_witness :
  let o :=
    GltfJsonLoader.fetch_fulfilled Example.parse Example.isDataUri
      Example2.updateVersion_fails Example.addDefaults
      Example.removePipelineExtras [] [] [(0, Example.parent)]
      Example2.loading in
  loads (trace o) = [1] /\
  unloads (trace o) = [1] /\
  GltfJsonLoader._state (final o) = FAILED.
Proof.
  pose proof
    (json_failed_upgrade_releases_external_buffers Example.parse
       Example.isDataUri Example2.updateVersion_fails Example.addDefaults
       Example.removePipelineExtras Example2.loading [] []
       [(0, Example.parent)] Example.legacy_gltf Example2.unsupported
       ltac:(discriminate) eq_refl eq_refl eq_refl) as H.
  lazy zeta in H. destruct H as (_ & _ & Hu & _ & Hs & _).
  split; [reflexivity |]. split; [| exact Hs].
  rewrite Hu. reflexivity.
Defined.

(** ** Vertex attributes and indices of the glTF loader *)

(** X11.  Whenever [loadVertexAttribute] returns, the accessor exists, it
    has a buffer view and the buffer view exists; exactly one vertex buffer
    was requested from the cache, for that buffer view, not to be kept
    resident; the attribute carries that loader and no constant value, the
    accessor's properties and the buffer view's stride; the glTF loader
    itself is unchanged. *)
Theorem loadVertexAttribute_returns_with_vertex_buffer
  (cache : ResourceCache) (loader : GltfLoader.t) (gltf : Gltf.t)
  (accessorId : nat) (semantic : string) (draco : option Gltf.Draco)
  (attribute : ModelComponents.VertexAttribute) :
  result (GltfLoader.loadVertexAttribute cache gltf accessorId semantic draco
            loader) = Normal attribute ->
  exists accessors accessor bufferViewId bufferViews bufferView,
    Gltf.accessors gltf = Some accessors /\
    accessors !! accessorId = Some accessor /\
    Gltf.bufferView accessor = Some bufferViewId /\
    Gltf.bufferViews gltf = Some bufferViews /\
    bufferViews !! bufferViewId = Some bufferView /\
    let request :=
      loadVertexBuffer (Some bufferViewId) draco semantic false
        (GltfLoader._asynchronous loader) in
    trace (GltfLoader.loadVertexAttribute cache gltf accessorId semantic
             draco loader) = [CacheLoad request (cache request)] /\
    final (GltfLoader.loadVertexAttribute cache gltf accessorId semantic
             draco loader) = loader /\
    attribute =
      ModelComponents.mkVertexAttribute semantic None
        (Gltf.accessor_byteOffset accessor) (Gltf.byteStride bufferView)
        (Gltf.componentType accessor) (Gltf.normalized accessor)
        (Gltf.count accessor) (Gltf.type accessor) (Some (cache request)).
Proof.
  unfold GltfLoader.loadVertexAttribute, GltfLoader.loadVertexBuffer,
    element, property.
  destruct (Gltf.accessors gltf) as [accessors|]; [| discriminate].
  cbn.
  destruct (accessors !! accessorId) as [accessor|] eqn:Haccessor;
    [| discriminate].
  destruct accessor as [[bufferViewId|] ? ? ? ? ?]; cbn.
  - destruct (Gltf.bufferViews gltf) as [bufferViews|].
    + cbn. destruct (bufferViews !! bufferViewId) as [bufferView|] eqn:Hview.
      * destruct draco; cbn; rewrite Hview; cbn; intros [= <-];
          exists accessors; eexists; exists bufferViewId, bufferViews,
            bufferView;
          (split; [reflexivity |]); (split; [exact Haccessor |]);
          repeat split; first [reflexivity | exact Hview].
      * destruct draco; cbn; rewrite Hview; discriminate.
    + destruct draco; discriminate.
  - destruct draco; cbn; destruct (Gltf.bufferViews gltf); discriminate.
Qed.

(** The POSITION attribute of [Example2.attribute_gltf]. *)
Lemma loadVertexAttribute_returns_with_vertex_buffer_witness :
  let o :=
    GltfLoader.loadVertexAttribute Example.cache Example2.attribute_gltf 0
      "POSITION" None Example.gltfLoader in
  (exists attribute,
     result o = Normal attribute /\
     ModelComponents.constantValue attribute = None /\
     ModelComponents.byteStride attribute = Some 12) /\
  length (trace o) = 1 /\
  final o = Example.gltfLoader.
Proof.
  lazy zeta.
  destruct
    (loadVertexAttribute_returns_with_vertex_buffer Example.cache
       Example.gltfLoader Example2.attribute_gltf 0 "POSITION" None _ eq_refl)
    as (accessors & accessor & bufferViewId & bufferViews & bufferView &
        _ & _ & _ & _ & _ & Htrace & Hfinal & _).
  split; [eexists; repeat split; reflexivity |].
  split; [rewrite Htrace; reflexivity | exact Hfinal].
Defined.

(** X12.  For an accessor that exists, [loadIndices] always returns, with
    the accessor's component type and count.  An index buffer is requested
    from the cache, once and not to be kept resident, unless there is
    neither Draco data nor a buffer view; the indices carry the constant
    value 0 exactly when nothing was requested and no cache resource was
    stored.  The glTF loader itself is unchanged. *)
Theorem loadIndices_constant_iff_not_requested
  (cache : ResourceCache) (loader : GltfLoader.t) (gltf : Gltf.t)
  (accessors : list Gltf.Accessor) (accessorId : nat)
  (accessor : Gltf.Accessor) (draco : option Gltf.Draco) :
  Gltf.accessors gltf = Some accessors ->
  accessors !! accessorId = Some accessor ->
  let o := GltfLoader.loadIndices cache gltf accessorId draco loader in
  let request :=
    loadIndexBuffer accessorId draco false (GltfLoader._asynchronous loader) in
  exists indices,
    result o = Normal indices /\
    final o = loader /\
    ModelComponents.indexDatatype indices = Gltf.componentType accessor /\
    ModelComponents.indices_count indices = Gltf.count accessor /\
    (ModelComponents.indices_cacheResource indices = None <->
       draco = None /\ Gltf.bufferView accessor = None) /\
    (ModelComponents.indices_constantValue indices = Some 0 <->
       ModelComponents.indices_cacheResource indices = None) /\
    (ModelComponents.indices_constantValue indices = None <->
       ModelComponents.indices_cacheResource indices =
         Some (cache request)) /\
    trace o =
      match ModelComponents.indices_cacheResource indices with
      | Some resource => [CacheLoad request resource]
      | None => []
      end.
Proof.
  intros Haccessors Haccessor o request. subst o request.
  unfold GltfLoader.loadIndices, GltfLoader.loadIndexBuffer, element,
    property.
  rewrite Haccessors. cbn. rewrite !Haccessor.
  destruct accessor as [[bufferViewId|] ? ? ? ? ?];
    destruct draco as [d|]; cbn; rewrite ?Haccessor; cbn;
    eexists; (split; [reflexivity |]); cbn;
    repeat split; try reflexivity; try discriminate;
    intros [? ?]; discriminate.
Qed.

(** Indices compressed with Draco, on an accessor without a buffer view. *)
Lemma loadIndices_constant_iff_not_requested_witness :
  let o :=
    GltfLoader.loadIndices Example.cache Example.constant_gltf 0
      (Some (Gltf.mkDraco 0 [])) Example.gltfLoader in
  exists indices,
    result o = Normal indices /\
    ModelComponents.indices_constantValue indices = None /\
    length (trace o) = 1.
Proof.
  lazy zeta.
  destruct
    (loadIndices_constant_iff_not_requested Example.cache Example.gltfLoader
       Example.constant_gltf [Example.constant_accessor] 0
       Example.constant_accessor (Some (Gltf.mkDraco 0 [])) eq_refl eq_refl)
    as (indices & Hresult & _ & _ & _ & _ & _ & _ & _).
  exists indices. split; [exact Hresult |].
  injection Hresult as <-. split; reflexivity.
Defined.

(** X13.  An accessor id that names no accessor: [loadVertexAttribute] and
    [loadIndices] throw a TypeError before anything is requested from the
    cache, and leave the glTF loader unchanged. *)
Theorem accessor_out_of_range_throws_before_any_request
  (cache : ResourceCache) (loader : GltfLoader.t) (gltf : Gltf.t)
  (accessorId : nat) (semantic : string) (draco : option Gltf.Draco) :
  (forall accessors,
     Gltf.accessors gltf = Some accessors -> length accessors <= accessorId) ->
  (exists message,
     GltfLoader.loadVertexAttribute cache gltf accessorId semantic draco
       loader = mkOutcome (Throw (TypeError message)) loader []) /\
  (exists message,
     GltfLoader.loadIndices cache gltf accessorId draco loader =
       mkOutcome (Throw (TypeError message)) loader []).
Proof.
  intros Hrange.
  unfold GltfLoader.loadVertexAttribute, GltfLoader.loadVertexBuffer,
    GltfLoader.loadIndices, GltfLoader.loadIndexBuffer, element, property.
  destruct (Gltf.accessors gltf) as [accessors|].
  - cbn. rewrite (proj2 (lookup_ge_None accessors accessorId))
      by (apply Hrange; reflexivity).
    split; eexists; reflexivity.
  - split; eexists; reflexivity.
Qed.

(** Accessor 1 of a document with one accessor. *)
Lemma accessor_out_of_range_throws_before_any_request_witness :
  trace (GltfLoader.loadVertexAttribute Example.cache Example2.attribute_gltf
           1 "POSITION" None Example.gltfLoader) = [] /\
  result (GltfLoader.loadIndices Example.cache Example2.attribute_gltf 1 None
            Example.gltfLoader) =
    Throw (TypeError "Cannot read property 'bufferView' of undefined").
Proof.
  destruct
    (accessor_out_of_range_throws_before_any_request Example.cache
       Example.gltfLoader Example2.attribute_gltf 1 "POSITION" None)
    as [[message Hattribute] _].
  { intros accessors [= <-]. simpl. lia. }
  split; [rewrite Hattribute |]; reflexivity.
Defined.

(** ** The node hierarchy of the glTF loader *)

Lemma bind_returns {S A B : Type} (m : Eff S A) (f : A -> Eff S B)
  (l : S) (b : B) :
  result (bind m f l) = Normal b ->
  exists a, result (m l) = Normal a /\ result (f a (final (m l))) = Normal b.
Proof.
  unfold bind. destruct (m l) as [[a|e] s t]; cbn; [| discriminate].
  destruct (f a s) as [r s' t'] eqn:E. cbn. intros ->.
  exists a. now rewrite E.
Qed.

Lemma loadNodes_loop_appends {A : Type}
  (gltf_nodes : option (list GltfNodes.GltfNode))
  (loadNode : option GltfNodes.GltfNode -> Eff GltfLoader.t A)
  (loadNodes_ :
     list nat -> Eff GltfLoader.t (list (option (GltfNodes.Node A))))
  (ids : list nat) :
  forall (nodes : list (option (GltfNodes.Node A))) (loader : GltfLoader.t)
         (out : list (option (GltfNodes.Node A))),
    result (GltfNodes.loadNodes_loop gltf_nodes loadNode loadNodes_ ids nodes
              loader) = Normal out ->
    exists loaded,
      length loaded = length ids /\ out = nodes ++ map Some loaded.
Proof.
  induction ids as [|id ids IH]; intros nodes loader out H.
  - injection H as <-. exists []. now rewrite app_nil_r.
  - cbn [GltfNodes.loadNodes_loop] in H.
    apply bind_returns in H as (gltfNode & _ & H).
    apply bind_returns in H as (node & _ & H).
    apply bind_returns in H as (gltf_children & _ & H).
    apply bind_returns in H as (node_children & _ & H).
    apply IH in H as (loaded & Hlength & ->).
    exists (GltfNodes.mkNode node node_children :: loaded).
    split; [simpl; now rewrite Hlength |].
    now rewrite <- app_assoc.
Qed.

Lemma loadNodes_loop_descends {A : Type}
  (gltf_nodes : option (list GltfNodes.GltfNode))
  (loadNode : option GltfNodes.GltfNode -> Eff GltfLoader.t A)
  (loadNodes_ :
     list nat -> Eff GltfLoader.t (list (option (GltfNodes.Node A))))
  (all : list GltfNodes.GltfNode) (id : nat) (gltfNode : GltfNodes.GltfNode)
  (childIds : list nat) (ids : list nat) :
  gltf_nodes = Some all ->
  all !! id = Some gltfNode ->
  GltfNodes.children gltfNode = Some childIds ->
  In id ids ->
  forall (nodes : list (option (GltfNodes.Node A))) (loader : GltfLoader.t)
         (out : list (option (GltfNodes.Node A))),
    result (GltfNodes.loadNodes_loop gltf_nodes loadNode loadNodes_ ids nodes
              loader) = Normal out ->
    exists loader' loaded, result (loadNodes_ childIds loader') = Normal loaded.
Proof.
  intros -> Hnode Hchildren.
  induction ids as [|first ids IH]; intros Hin nodes loader out H;
    [destruct Hin |].
  cbn [GltfNodes.loadNodes_loop] in H.
  apply bind_returns in H as (found & Hfound & H).
  apply bind_returns in H as (node & _ & H).
  apply bind_returns in H as (gltf_children & Hgltf_children & H).
  apply bind_returns in H as (node_children & Hnode_children & H).
  destruct Hin as [-> | Hin]; [| exact (IH Hin _ _ _ H)].
  cbn in Hfound. rewrite Hnode in Hfound. injection Hfound as <-.
  cbn in Hgltf_children. rewrite Hchildren in Hgltf_children.
  injection Hgltf_children as <-.
  apply bind_returns in Hnode_children as (loaded & Hloaded & _).
  eauto.
Qed.

(** X14.  Whenever [loadNodes] returns, the array is twice as long as the
    list of ids: one hole for every id, left by [new Array(length)], and
    after the holes the loaded nodes, one for every id. *)
Theorem loadNodes_array_starts_with_holes {A : Type}
  (gltf_nodes : option (list GltfNodes.GltfNode))
  (loadNode : option GltfNodes.GltfNode -> Eff GltfLoader.t A)
  (stack : nat) (gltfNodeIds : list nat) (loader : GltfLoader.t)
  (nodes : list (option (GltfNodes.Node A))) :
  result (GltfNodes.loadNodes gltf_nodes loadNode stack gltfNodeIds loader) =
    Normal nodes ->
  length nodes = 2 * length gltfNodeIds /\
  exists loaded,
    length loaded = length gltfNodeIds /\
    nodes = replicate (length gltfNodeIds) None ++ map Some loaded.
Proof.
  destruct stack as [|stack]; [discriminate |].
  cbn [GltfNodes.loadNodes]. intros H.
  apply loadNodes_loop_appends in H as (loaded & Hlength & ->).
  split; [| now exists loaded].
  rewrite length_app, length_replicate, length_map. lia.
Qed.

(** The root of [Example2.tree_nodes]: a hole, then the root, whose children
    are a hole and the child. *)
Lemma loadNodes_array_starts_with_holes_witness :
  result (GltfNodes.loadNodes Example2.tree_nodes Example2.loadNode 2 [0]
            Example.gltfLoader) =
    Normal
      [None;
       Some (GltfNodes.mkNode (Some 0)
               (Some [None; Some (GltfNodes.mkNode None None)]))] /\
  length
    [None;
     Some (GltfNodes.mkNode (Some 0)
             (Some [None; Some (GltfNodes.mkNode None None)]))] = 2 * 1.
Proof.
  split; [reflexivity |].
  exact
    (proj1
       (loadNodes_array_starts_with_holes Example2.tree_nodes
          Example2.loadNode 2 [0] Example.gltfLoader _ eq_refl)).
Defined.

(** X15.  The hierarchy is not checked for cycles: when one of the ids leads
    into a cycle, [loadNodes] returns for no depth of the call stack. *)
Theorem loadNodes_cyclic_hierarchy_never_returns {A : Type}
  (gltf_nodes : option (list GltfNodes.GltfNode))
  (loadNode : option GltfNodes.GltfNode -> Eff GltfLoader.t A)
  (on_cycle : nat -> Prop) (id : nat) (gltfNodeIds : list nat) :
  leads_into_cycle gltf_nodes on_cycle ->
  In id gltfNodeIds ->
  on_cycle id ->
  forall (stack : nat) (loader : GltfLoader.t)
         (nodes : list (option (GltfNodes.Node A))),
    result (GltfNodes.loadNodes gltf_nodes loadNode stack gltfNodeIds loader)
      <> Normal nodes.
Proof.
  intros Hcycle Hin Hid stack. revert id gltfNodeIds Hin Hid.
  induction stack as [|stack IH]; intros id ids Hin Hid loader nodes H;
    [discriminate |].
  cbn [GltfNodes.loadNodes] in H.
  destruct (Hcycle id Hid)
    as (all & gltfNode & childIds & child & Hall & Hnode & Hchildren &
        Hchild & Hon).
  destruct
    (loadNodes_loop_descends gltf_nodes loadNode _ all id gltfNode childIds
       ids Hall Hnode Hchildren Hin _ _ _ H) as (loader' & loaded & Hloaded).
  exact (IH child childIds Hchild Hon loader' loaded Hloaded).
Qed.

(** The node of [Example2.cyclic_nodes] that is its own child, with a call
    stack of depth 8. *)
Lemma loadNodes_cyclic_hierarchy_never_returns_witness :
  result (GltfNodes.loadNodes Example2.cyclic_nodes Example2.loadNode 8 [0]
            Example.gltfLoader) <> Normal [] /\
  result (GltfNodes.loadNodes Example2.cyclic_nodes Example2.loadNode 8 [0]
            Example.gltfLoader) = Throw GltfNodes.stack_overflow.
Proof.
  split; [| reflexivity].
  apply
    (loadNodes_cyclic_hierarchy_never_returns Example2.cyclic_nodes
       Example2.loadNode (fun id => id = 0) 0 [0]).
  - intros id ->.
    exists [GltfNodes.mkGltfNode None (Some [0])],
      (GltfNodes.mkGltfNode None (Some [0])), [0], 0.
    repeat split; simpl; auto.
  - simpl. auto.
  - reflexivity.
Defined.
